(** * Auryn BCPNN example harnesses: configuration layer and run coordinator

    A shallow embedding of the two [main] functions of the BCPNN example
    simulations (the single-stage harness with selectable plasticity, and
    [examples/sim_bcpnn_1.cpp]).  The simulation kernel, the monitors and
    MPI are external collaborators: every call made to them is recorded as
    an event, with the argument values computed at the call site. *)

From Stdlib Require Import ZArith Bool List String Lia.
From Stdlib Require Import Floats.SpecFloat.
Import ListNotations.
Open Scope Z_scope.

(** ** C++ arithmetic *)

(** Modelled from the spec: the typedef [NeuronID] lives in Auryn's
    headers, which are not among the sources; population sizes are
    unsigned counts, and Auryn declares [NeuronID] as [unsigned int].
    [int] and [unsigned int] are 32 bits wide and are carried as [Z] with
    the conversions written out; this one is [int -> unsigned int]. *)
Definition int_to_unsigned (z : Z) : Z := z mod 2 ^ 32.

(** Conversion to [int] of a value that may not fit (two's complement). *)
Definition to_int (z : Z) : Z := (z + 2 ^ 31) mod 2 ^ 32 - 2 ^ 31.


(** Modelled from the spec: the typedefs [AurynFloat] and [AurynWeight]
    live in Auryn's headers, which are not among the sources; the sources
    cast to [float] where they compute with them, and Auryn declares both
    as [float].  [float] is IEEE binary32 and [double] is IEEE binary64,
    both over the specification floats of the standard library. *)
Definition float := spec_float.
Definition double := spec_float.

Definition float_of_Z (n : Z) : float := binary_normalize 24 128 n 0 false.
Definition double_of_Z (n : Z) : double := binary_normalize 53 1024 n 0 false.

(** Narrowing conversion [double -> float]. *)
Definition float_of_double (x : double) : float :=
  match x with
  | S754_finite s m e => binary_round 24 128 s m e
  | _ => x
  end.

Definition float_div (x y : float) : float := SFdiv 24 128 x y.
Definition float_gt (x y : float) : bool := SFltb y x.
Definition double_mul (x y : double) : double := SFmul 53 1024 x y.
Definition double_div (x y : double) : double := SFdiv 53 1024 x y.

(** A decimal literal [m * 10^-k] of type [double]: the binary64 number
    nearest to it (both [m] and [10^k] are exact in binary64 for the
    literals of these programs, and IEEE division rounds correctly). *)
Definition double_literal (m : Z) (k : Z) : double :=
  double_div (double_of_Z m) (double_of_Z (10 ^ k)).

(** ** External collaborators and their calls *)

Definition handle := nat.

Inductive connection_kind := Sparse | STDP | Bcpnn.

(** Variables of [main] that are declared without an initialiser and only
    assigned on some paths. *)
Inductive variable :=
| var_stdp_con | var_bcpnn_con
| var_gnsyn | var_stdp_gnsyn | var_bcpnn_gnsyn.

Inductive event :=
(* std::cerr *)
| CerrException (what : string)
| CerrUnknownException
| CerrFanIn
| CerrSparseness (s : float)
| CerrIndices (ipre ipost : Z)
| CerrExecutionTime
| CerrNonPlastic (gnsyn : Z)
| CerrStdp (gnsyn : Z)
| CerrBcpnn (gnsyn : Z)
(* kernel set-up *)
| AurynInit (dir name : string)
| SetMasterSeed (seed : Z)
| SetLogfileLoglevel
| LoggerMsg (text : string)
(* populations and connections *)
| NewPoissonGroup (h : handle) (n : Z) (rate : double)
| NewTIFGroup (h : handle) (n : Z)
| NewSparseConnection (h src dst : handle) (w sparseness : float)
| NewSTDPConnection (h src dst : handle) (w sparseness : float)
    (tau_pre tau_post : double)
| StdpSetA (h : handle) (v : double)
| StdpSetB (h : handle) (v : double)
| SetMinWeight (h : handle) (v : double)
| SetMaxWeight (h : handle) (v : double)
| NewBcpnnConnection (h src dst : handle) (w : Z) (sparseness : float)
    (tau_pre tau_z_pr tau_z_po tau_p : double) (refractory : float)
| SetWgain (h : handle) (v : double)
| SetBgain (h : handle) (v : double)
(* monitors *)
| NewPreTraceMonitor (src : handle) (tau : double) (unit_index : Z)
    (file : string)
| NewPostTraceMonitor (src : handle) (name : string) (unit_index : Z)
    (file : string)
| NewStateMonitor (src : handle) (unit_index : Z) (name file : string)
| NewTraceStateMonitor (src : handle) (tau : double) (unit_index : Z)
    (file : string)
| NewWeightMonitor (con : handle) (i j : Z) (file : string)
    (interval : double) (element : Z)
| NewSpikeMonitor (src : handle) (file : string)
(* run and reduction *)
| MpiBarrier
| MpiWtime
| SysRun (simtime : double)
| GetNonzero (k : connection_kind) (h : handle)
| MpiReduceSum (send : Z)
| AurynFree.

(** How a process ends.  [Return] is a [return] from [main], [Exit] a call
    of [exit], [Abort] a call of [auryn_abort]; [Fault] is the use of a
    variable that was never assigned (undefined behaviour). *)
Inductive halt :=
| Return (status : Z)
| Exit (status : Z)
| Abort (code : Z)
| Fault (v : variable).

Record machine := {
  events : list event;      (* calls made so far, oldest first *)
  reads : list variable;    (* reads of conditionally assigned variables *)
  allocated : nat           (* number of objects created by [new] *)
}.

Definition boot : machine :=
  {| events := []; reads := []; allocated := 0 |}.

Inductive step (A : Type) :=
| Next (a : A)
| Stop (h : halt).
Arguments Next {A} a.
Arguments Stop {A} h.

Definition M (A : Type) : Type := machine -> step A * machine.

Definition ret {A} (a : A) : M A := fun m => (Next a, m).

Definition bind {A B} (c : M A) (k : A -> M B) : M B :=
  fun m =>
    match c m with
    | (Next a, m') => k a m'
    | (Stop h, m') => (Stop h, m')
    end.

Notation "x <- c1 ;; c2" := (bind c1 (fun x => c2))
  (at level 61, c1 at next level, right associativity).
Notation "c1 ;; c2" := (bind c1 (fun _ => c2))
  (at level 61, right associativity).

Definition stop {A} (h : halt) : M A := fun m => (Stop h, m).

(** [exit(status)] *)
Definition exit {A} (status : Z) : M A := stop (Exit status).

(** Modelled from the spec: [auryn_abort] is declared in [auryn.h], which
    is not among the sources; a violated check "terminates immediately
    with a distinct numeric abort code". *)
Definition auryn_abort {A} (code : Z) : M A := stop (Abort code).

Definition call (e : event) : M unit :=
  fun m => (Next tt,
            {| events := events m ++ [e];
               reads := reads m;
               allocated := allocated m |}).

Definition new (mk : handle -> event) : M handle :=
  fun m => (Next (allocated m),
            {| events := events m ++ [mk (allocated m)];
               reads := reads m;
               allocated := S (allocated m) |}).

(** Reading a variable that is assigned only on some paths: the read is
    logged, and it is a fault when the variable holds nothing. *)
Definition read {A} (v : variable) (x : option A) : M A :=
  fun m =>
    let m' := {| events := events m;
                 reads := reads m ++ [v];
                 allocated := allocated m |} in
    match x with
    | Some a => (Next a, m')
    | None => (Stop (Fault v), m')
    end.

Definition when (b : bool) (c : M unit) : M unit :=
  if b then c else ret tt.

(** The whole process: a [main] that runs to its end returns its value. *)
Definition process (c : M Z) : halt * machine :=
  match c boot with
  | (Next status, m) => (Return status, m)
  | (Stop h, m) => (h, m)
  end.

(** What lies outside the harness, as seen by one rank. *)
Record environment := {
  mpi_rank : nat;                          (* sys->mpi_rank() *)
  mpi_size : nat;                          (* number of cooperating ranks *)
  run_ok : bool;                           (* result of sys->run *)
  nonzero : connection_kind -> nat -> Z    (* get_nonzero() on each rank *)
}.

(** [sys->mpi_rank()==0] *)
Definition is_root (env : environment) : bool := Nat.eqb (mpi_rank env) 0.

(** Every rank runs the same [main] on the same command line.  A local
    variable whose value depends on the rank, such as [nsyn], is held as
    the value it has on each rank; the process that is traced is the one
    of rank [mpi_rank env]. *)
Definition per_rank (A : Type) : Type := nat -> A.

(** [int nsyn = con->get_nonzero();] on rank [r]. *)
Definition local_count (env : environment) (k : connection_kind) (r : nat)
  : Z := to_int (nonzero env k r).

(** [MPI_SUM] over [MPI_INT]: the contributions are added as [int]s. *)
Definition MPI_SUM_int (contributions : list Z) : Z :=
  fold_left (fun acc n => to_int (acc + n)) contributions 0.

(** The counts of a connection on all ranks. *)
Definition contributions (env : environment) (k : connection_kind)
  : list Z := map (local_count env k) (seq 0 (mpi_size env)).

(** [MPI_Reduce(&send, &recv, 1, MPI_INT, MPI_SUM, 0, comm)]: every rank
    contributes what its send buffer holds, and only the root's receive
    buffer is written, with the sum of the send buffers of all ranks. *)
Definition MPI_Reduce (env : environment) (send : per_rank Z)
  : M (option Z) :=
  call (MpiReduceSum (send (mpi_rank env))) ;;
  ret (if is_root env
       then Some (MPI_SUM_int (map send (seq 0 (mpi_size env))))
       else None).

(** [con->get_nonzero()] on a connection of kind [k]. *)
Definition get_nonzero (env : environment) (k : connection_kind)
  (h : handle) : M (per_rank Z) :=
  call (GetNonzero k h) ;;
  ret (local_count env k).

(** [if (!sys->run(simtime)) errcode = 1;] with [errcode] initially 0. *)
Definition sys_run (env : environment) (simtime : double) : M Z :=
  call (SysRun simtime) ;;
  ret (if run_ok env then 0 else 1).

(** Outcome of the [try] block around option parsing. *)
Inductive parse_result (VM : Type) :=
| po_parsed (vm : VM)
| po_std_exception (what : string)
| po_unknown_exception.
Arguments po_parsed {VM} vm.
Arguments po_std_exception {VM} what.
Arguments po_unknown_exception {VM}.

Definition default {A} (o : option A) (d : A) : A :=
  match o with
  | Some a => a
  | None => d
  end.

(** ** The single-stage harness with selectable plasticity
    (program name [sim_bcpnn], options [with_stdp] / [with_bcpnn]) *)

Module SimBcpnn.

(** [po::variables_map] after [po::notify]: which options were given, with
    the value [as<T>()] returns for each. *)
Record variables_map := {
  vm_help : bool;
  vm_dir : option string;
  vm_simtime : option double;
  vm_with_stdp : option bool;
  vm_with_bcpnn : option bool;
  vm_winit : option double;
  vm_kappa : option double;
  vm_nbinputs : option Z;
  vm_size : option Z;
  vm_npostsyn : option Z;
  vm_ipre : option Z;
  vm_ipost : option Z;
  vm_seed : option Z;
  vm_nomon : option bool
}.

Definition no_options : variables_map :=
  {| vm_help := false; vm_dir := None; vm_simtime := None;
     vm_with_stdp := None; vm_with_bcpnn := None; vm_winit := None;
     vm_kappa := None; vm_nbinputs := None; vm_size := None;
     vm_npostsyn := None; vm_ipre := None; vm_ipost := None;
     vm_seed := None; vm_nomon := None |}.

(** The local variables of [main] that options can set. *)
Record locals := {
  dir : string;
  simtime : double;
  nbinputs : Z;        (* NeuronID *)
  size : Z;            (* NeuronID *)
  seed : Z;            (* unsigned int *)
  kappa : double;
  npostsyn : float;    (* AurynFloat *)
  winit : float;       (* AurynWeight *)
  with_stdp : bool;
  with_bcpnn : bool;
  nomon : bool;
  ipre : Z;            (* int *)
  ipost : Z            (* int *)
}.

(** Each [if (vm.count(k)) x = vm[k].as<T>();] with the conversion to the
    type of [x], over the initialisers of the declarations. *)
Definition read_options (vm : variables_map) : locals :=
  {| dir := default (vm_dir vm) "."%string;
     simtime := default (vm_simtime vm) (double_of_Z 10);
     nbinputs := default (option_map int_to_unsigned (vm_nbinputs vm)) 100;
     size := default (option_map int_to_unsigned (vm_size vm)) 25;
     seed := default (option_map int_to_unsigned (vm_seed vm)) 1;
     kappa := default (vm_kappa vm) (double_of_Z 20);
     npostsyn := default (option_map float_of_Z (vm_npostsyn vm))
                         (float_of_Z 100);
     winit := default (option_map float_of_double (vm_winit vm))
                      (float_of_double (double_literal 2 2));
     with_stdp := default (vm_with_stdp vm) false;
     with_bcpnn := default (vm_with_bcpnn vm) false;
     nomon := default (vm_nomon vm) false;
     ipre := default (vm_ipre vm) 5;
     ipost := default (vm_ipost vm) 5 |}.

Definition initial_locals : locals := read_options no_options.

(** Constants of [main]. *)
Definition tau_pre : double := double_literal 20 3.
Definition tau_post : double := double_literal 20 3.
Definition eta : double := double_literal 10 4.
Definition tau_z_pr : double := double_literal 25 3.
Definition tau_z_po : double := double_literal 10 3.
Definition tau_p : double := double_literal 2 1.
Definition refractory_period : float := float_of_double (double_literal 5 3).

(** [-1.20*tau_post/tau_pre*eta] and [eta], as the right-hand sides of the
    assignments to [A] and [B]. *)
Definition stdp_A : double :=
  double_mul
    (double_div (double_mul (SFopp (double_literal 120 2)) tau_post) tau_pre)
    eta.
Definition stdp_B : double := eta.

(** The [try] block: a help request returns 1, an exception derived from
    [std::exception] is printed and returns 1, any other exception is
    printed and control leaves the handler.  The library throws while
    parsing, before the first assignment. *)
Definition parse_stage (args : parse_result variables_map) : M locals :=
  match args with
  | po_parsed vm =>
      if vm_help vm then stop (Return 1) else ret (read_options vm)
  | po_std_exception what =>
      call (CerrException what) ;; stop (Return 1)
  | po_unknown_exception =>
      call CerrUnknownException ;; ret initial_locals
  end.

(** [npostsyn>nbinputs]: [nbinputs] is converted to [float]. *)
Definition fan_in_exceeds (l : locals) : bool :=
  float_gt (npostsyn l) (float_of_Z (nbinputs l)).

(** [(float)npostsyn/nbinputs] *)
Definition derived_sparseness (l : locals) : float :=
  float_div (npostsyn l) (float_of_Z (nbinputs l)).

(** [nbinputs<ipre] and [size<ipost]: the [int] is converted to
    [unsigned int]. *)
Definition ipre_rejected (l : locals) : bool :=
  nbinputs l <? int_to_unsigned (ipre l).
Definition ipost_rejected (l : locals) : bool :=
  size l <? int_to_unsigned (ipost l).

(** The body of [main] below the [try] block. *)
Definition experiment (l : locals) (env : environment) : M Z :=
  when (fan_in_exceeds l) (call CerrFanIn ;; exit 0) ;;
  call (AurynInit (dir l) "sim_bcpnn") ;;
  call (SetMasterSeed (seed l)) ;;
  call SetLogfileLoglevel ;;
  let sparseness := derived_sparseness l in
  when (is_root env) (call (CerrSparseness sparseness)) ;;
  poisson <- new (fun h => NewPoissonGroup h (nbinputs l) (kappa l)) ;;
  poneurons <- new (fun h => NewTIFGroup h (size l)) ;;
  sp_con <- new (fun h =>
    NewSparseConnection h poisson poneurons (winit l) sparseness) ;;
  stdp_con <-
    (if with_stdp l then
       h <- new (fun h => NewSTDPConnection h poisson poneurons (winit l)
                            sparseness tau_pre tau_post) ;;
       let stdp_con := Some h in
       p <- read var_stdp_con stdp_con ;; call (StdpSetA p stdp_A) ;;
       p <- read var_stdp_con stdp_con ;; call (StdpSetB p stdp_B) ;;
       p <- read var_stdp_con stdp_con ;;
       call (SetMinWeight p (double_of_Z 0)) ;;
       p <- read var_stdp_con stdp_con ;;
       call (SetMaxWeight p (double_of_Z 1)) ;;
       ret stdp_con
     else ret None) ;;
  bcpnn_con <-
    (if with_bcpnn l then
       h <- new (fun h => NewBcpnnConnection h poisson poneurons 0 sparseness
                            tau_pre tau_z_pr tau_z_po tau_p
                            refractory_period) ;;
       let bcpnn_con := Some h in
       p <- read var_bcpnn_con bcpnn_con ;;
       call (SetWgain p (double_literal 1 4)) ;;
       p <- read var_bcpnn_con bcpnn_con ;;
       call (SetBgain p (double_literal 1 4)) ;;
       ret bcpnn_con
     else ret None) ;;
  when (negb (nomon l))
    (when (ipre_rejected l)
       (call (LoggerMsg "ERROR in main: nbinputs<ipre") ;;
        auryn_abort 4711) ;;
     when (ipost_rejected l)
       (call (LoggerMsg "ERROR in main: size<ipost") ;;
        auryn_abort 4712) ;;
     when (with_bcpnn l)
       (when (is_root env) (call (CerrIndices (ipre l) (ipost l))) ;;
        call (NewPreTraceMonitor poisson tau_z_pr (ipre l) "zi") ;;
        call (NewPostTraceMonitor poneurons "tr_z_post" (ipost l) "zj") ;;
        call (NewPostTraceMonitor poneurons "tr_p_post" (ipost l) "pj") ;;
        call (NewStateMonitor poneurons (ipost l) "bj_post" "bj") ;;
        c <- read var_bcpnn_con bcpnn_con ;;
        call (NewWeightMonitor c (ipre l) (ipost l) "pi"
                (double_literal 1 2) 2) ;;
        c <- read var_bcpnn_con bcpnn_con ;;
        call (NewWeightMonitor c (ipre l) (ipost l) "pij"
                (double_literal 1 3) 1) ;;
        c <- read var_bcpnn_con bcpnn_con ;;
        call (NewWeightMonitor c (ipre l) (ipost l) "wij"
                (double_literal 1 2) 0)) ;;
     call (NewSpikeMonitor poisson "prspikes") ;;
     call (NewSpikeMonitor poneurons "pospikes")) ;;
  call MpiBarrier ;;
  call MpiWtime ;;
  errcode <- sys_run env (simtime l) ;;
  nsyn <- get_nonzero env Sparse sp_con ;;
  gnsyn <- MPI_Reduce env nsyn ;;
  stdp_gnsyn <-
    (if with_stdp l then
       p <- read var_stdp_con stdp_con ;;
       stdp_nsyn <- get_nonzero env STDP p ;;
       MPI_Reduce env stdp_nsyn
     else ret None) ;;
  bcpnn_gnsyn <-
    (if with_bcpnn l then
       p <- read var_bcpnn_con bcpnn_con ;;
       bcpnn_nsyn <- get_nonzero env Bcpnn p ;;
       MPI_Reduce env bcpnn_nsyn
     else ret None) ;;
  when (is_root env)
    (call MpiWtime ;;
     call CerrExecutionTime ;;
     g <- read var_gnsyn gnsyn ;;
     call (CerrNonPlastic g) ;;
     when (with_stdp l)
       (g <- read var_stdp_gnsyn stdp_gnsyn ;; call (CerrStdp g)) ;;
     when (with_bcpnn l)
       (g <- read var_bcpnn_gnsyn bcpnn_gnsyn ;; call (CerrBcpnn g))) ;;
  call (LoggerMsg "Freeing ...") ;;
  call AurynFree ;;
  ret errcode.

Definition main (args : parse_result variables_map) (env : environment)
  : M Z :=
  l <- parse_stage args ;;
  experiment l env.

(** The configuration the parsing stage hands on, when it hands one on. *)
Definition configuration (args : parse_result variables_map)
  : option locals :=
  match args with
  | po_parsed vm => if vm_help vm then None else Some (read_options vm)
  | po_std_exception _ => None
  | po_unknown_exception => Some initial_locals
  end.

Definition single_rank (ok : bool) : environment :=
  {| mpi_rank := 0; mpi_size := 1; run_ok := ok;
     nonzero := fun _ _ => 0 |}.

End SimBcpnn.

(** ** The two-stage harness [examples/sim_bcpnn_1.cpp] *)

Module SimBcpnn1.

Record variables_map := {
  vm_help : bool;
  vm_dir : option string;
  vm_simtime : option double;
  vm_sparseness : option double;
  vm_winit : option double;
  vm_winit2 : option double;
  vm_kappa : option double;
  vm_nbinputs : option Z;
  vm_size : option Z;
  vm_seed : option Z;
  vm_nomon : option bool
}.

Definition no_options : variables_map :=
  {| vm_help := false; vm_dir := None; vm_simtime := None;
     vm_sparseness := None; vm_winit := None; vm_winit2 := None;
     vm_kappa := None; vm_nbinputs := None; vm_size := None;
     vm_seed := None; vm_nomon := None |}.

Record locals := {
  dir : string;
  simtime : double;
  nbinputs : Z;          (* NeuronID *)
  size : Z;              (* NeuronID *)
  seed : Z;              (* unsigned int *)
  kappa : double;
  sparseness : float;    (* AurynFloat *)
  winit : float;         (* AurynWeight *)
  winit2 : float;        (* AurynWeight *)
  nomon : bool
}.

Definition read_options (vm : variables_map) : locals :=
  {| dir := default (vm_dir vm) "."%string;
     simtime := default (vm_simtime vm) (double_of_Z 10);
     nbinputs := default (option_map int_to_unsigned (vm_nbinputs vm)) 100;
     size := default (option_map int_to_unsigned (vm_size vm)) 25;
     seed := default (option_map int_to_unsigned (vm_seed vm)) 1;
     kappa := default (vm_kappa vm) (double_of_Z 20);
     sparseness := default (option_map float_of_double (vm_sparseness vm))
                           (float_of_double (double_literal 6 1));
     winit := default (option_map float_of_double (vm_winit vm))
                      (float_of_double (double_literal 4 2));
     winit2 := default (option_map float_of_double (vm_winit2 vm))
                       (float_of_double (double_literal 4 2));
     nomon := default (vm_nomon vm) false |}.

Definition initial_locals : locals := read_options no_options.

Definition tau_pre : double := double_literal 20 3.
Definition tau_z_pr : double := double_literal 25 3.
Definition tau_z_po : double := double_literal 10 3.
Definition tau_p : double := double_literal 2 1.
Definition refractory_period : float := float_of_double (double_literal 5 3).

(** [int ipre = 99,ipost = 17;] inside the monitor block. *)
Definition ipre : Z := 99.
Definition ipost : Z := 17.

Definition parse_stage (args : parse_result variables_map) : M locals :=
  match args with
  | po_parsed vm =>
      if vm_help vm then stop (Return 1) else ret (read_options vm)
  | po_std_exception what =>
      call (CerrException what) ;; stop (Return 1)
  | po_unknown_exception =>
      call CerrUnknownException ;; ret initial_locals
  end.

Definition ipre_rejected (l : locals) : bool :=
  nbinputs l <? int_to_unsigned ipre.
Definition ipost_rejected (l : locals) : bool :=
  size l <? int_to_unsigned ipost.

(** The body of [main] below the [try] block; [UNUSEDMON] is not defined,
    so the monitors under it are not compiled. *)
Definition experiment (l : locals) (env : environment) : M Z :=
  call (AurynInit (dir l) "sim_bcpnn") ;;
  call (SetMasterSeed (seed l)) ;;
  call SetLogfileLoglevel ;;
  poisson <- new (fun h => NewPoissonGroup h (nbinputs l) (kappa l)) ;;
  prneurons <- new (fun h => NewTIFGroup h (nbinputs l)) ;;
  poneurons <- new (fun h => NewTIFGroup h (size l)) ;;
  sp1_con <- new (fun h =>
    NewSparseConnection h poisson prneurons (winit l) (sparseness l)) ;;
  sp2_con <- new (fun h =>
    NewSparseConnection h prneurons poneurons (winit2 l) (sparseness l)) ;;
  bcpnn_con <- new (fun h =>
    NewBcpnnConnection h prneurons poneurons 0 (sparseness l)
      tau_pre tau_z_pr tau_z_po tau_p refractory_period) ;;
  call (SetWgain bcpnn_con (double_literal 1 4)) ;;
  call (SetBgain bcpnn_con (double_literal 1 4)) ;;
  when (negb (nomon l))
    (when (ipre_rejected l)
       (call (LoggerMsg "ERROR in main: nbinputs<ipre") ;;
        auryn_abort 4711) ;;
     when (ipost_rejected l)
       (call (LoggerMsg "ERROR in main: size<ipost") ;;
        auryn_abort 4712) ;;
     call (NewTraceStateMonitor prneurons tau_z_pr ipre "zi") ;;
     call (NewTraceStateMonitor poneurons tau_z_po ipost "zj")) ;;
  call MpiBarrier ;;
  call MpiWtime ;;
  errcode <- sys_run env (simtime l) ;;
  when (is_root env)
    (call MpiWtime ;; call CerrExecutionTime) ;;
  call (LoggerMsg "Freeing ...") ;;
  call AurynFree ;;
  ret errcode.

Definition main (args : parse_result variables_map) (env : environment)
  : M Z :=
  l <- parse_stage args ;;
  experiment l env.

End SimBcpnn1.

(** ** Reading traces *)

(** Calls that fix a derived parameter of a connection: its sparseness at
    construction, the coefficients of the pair rule and its weight bounds,
    the gains of the associative rule. *)
Definition sets_derived_parameter (e : event) : bool :=
  match e with
  | NewSparseConnection _ _ _ _ _ | NewSTDPConnection _ _ _ _ _ _ _
  | NewBcpnnConnection _ _ _ _ _ _ _ _ _ _
  | StdpSetA _ _ | StdpSetB _ _ | SetMinWeight _ _ | SetMaxWeight _ _
  | SetWgain _ _ | SetBgain _ _ => true
  | _ => false
  end.

Definition derived_parameters (trace : list event) : list event :=
  filter sets_derived_parameter trace.

(** The sparseness a call hands to the kernel or prints, if any. *)
Definition sparseness_of (e : event) : option float :=
  match e with
  | CerrSparseness s => Some s
  | NewSparseConnection _ _ _ _ s => Some s
  | NewSTDPConnection _ _ _ _ s _ _ => Some s
  | NewBcpnnConnection _ _ _ _ s _ _ _ _ _ => Some s
  | _ => None
  end.

(** Trace and weight probes: the monitors bound to a unit index. *)
Definition is_probe (e : event) : bool :=
  match e with
  | NewPreTraceMonitor _ _ _ _ | NewPostTraceMonitor _ _ _ _
  | NewStateMonitor _ _ _ _ | NewTraceStateMonitor _ _ _ _
  | NewWeightMonitor _ _ _ _ _ _ => true
  | _ => false
  end.



(** ** Single-precision rounding *)

(** The second half of [binary_round_aux]: renormalising after rounding. *)
Definition renormalise (s : bool) (m e : Z) : spec_float :=
  let '(mrs, e') := shr_fexp 24 128 m e loc_Exact in
  match shr_m mrs with
  | Z0 => S754_zero s
  | Zpos m' =>
      if e' <=? 128 - 24 then S754_finite s m' e' else S754_infinity s
  | _ => S754_nan
  end.

(** Where the remainder [r] of a division by [N] lies in its interval. *)
Definition locates (l : location) (r N : Z) : Prop :=
  match l with
  | loc_Exact => r = 0
  | loc_Inexact Lt => 0 < 2 * r < N
  | loc_Inexact Eq => 2 * r = N
  | loc_Inexact Gt => N < 2 * r
  end.

(** [x] is a normal binary32 number [m * 2^e] within half a unit in the
    last place of the rational [p / n], that is
    [|m * 2^e - p/n| <= 2^(e-1)], a relative error of at most [2^-24]. *)
Definition nearest_to_quotient (x : float) (p n : Z) : Prop :=
  exists (m : positive) (e : Z),
    x = S754_finite false m e /\
    2 ^ 23 <= Zpos m < 2 ^ 24 /\ e <= 0 /\
    2 * Z.abs (Zpos m * n - p * 2 ^ (- e)) <= n.

(** ** Vocabulary of the properties *)

Import SimBcpnn.

(** What the handlers of the [try] block print. *)
Definition parse_events (args : parse_result variables_map) : list event :=
  match args with
  | po_parsed _ => []
  | po_std_exception what => [CerrException what]
  | po_unknown_exception => [CerrUnknownException]
  end.

(** The condition under which each conditionally assigned variable of
    [main] is assigned. *)
Definition assigned_under (l : locals) (env : environment) (v : variable)
  : bool :=
  match v with
  | var_stdp_con => with_stdp l
  | var_bcpnn_con => with_bcpnn l
  | var_gnsyn => is_root env
  | var_stdp_gnsyn => is_root env && with_stdp l
  | var_bcpnn_gnsyn => is_root env && with_bcpnn l
  end.

(** Which connections a configuration creates. *)
Definition present (l : locals) (k : connection_kind) : bool :=
  match k with
  | Sparse => true
  | STDP => with_stdp l
  | Bcpnn => with_bcpnn l
  end.



(** Concrete command lines. *)

(** [--npostsyn 150] *)
Definition fan_in_150 : variables_map :=
  {| vm_help := false; vm_dir := None; vm_simtime := None;
     vm_with_stdp := None; vm_with_bcpnn := None; vm_winit := None;
     vm_kappa := None; vm_nbinputs := None; vm_size := None;
     vm_npostsyn := Some 150; vm_ipre := None; vm_ipost := None;
     vm_seed := None; vm_nomon := None |}.

(** The fan-in [main] holds after the [try] block, as the integer it was
    given: [AurynFloat npostsyn = 100;] unless [--npostsyn] sets it. *)
Definition requested_fan_in (vm : variables_map) : Z :=
  default (vm_npostsyn vm) 100.


(** [--nbinputs 100 --size 25 --npostsyn 100] *)
Definition fan_in_100 : variables_map :=
  {| vm_help := false; vm_dir := None; vm_simtime := None;
     vm_with_stdp := None; vm_with_bcpnn := None; vm_winit := None;
     vm_kappa := None; vm_nbinputs := Some 100; vm_size := Some 25;
     vm_npostsyn := Some 100; vm_ipre := None; vm_ipost := None;
     vm_seed := None; vm_nomon := None |}.

(** [--with_stdp true] *)
Definition pair_rule : variables_map :=
  {| vm_help := false; vm_dir := None; vm_simtime := None;
     vm_with_stdp := Some true; vm_with_bcpnn := None; vm_winit := None;
     vm_kappa := None; vm_nbinputs := None; vm_size := None;
     vm_npostsyn := None; vm_ipre := None; vm_ipost := None;
     vm_seed := None; vm_nomon := None |}.

(** [--with_bcpnn true --ipre 100]: the input population has 100 units,
    numbered 0 to 99. *)
Definition ipre_100 : variables_map :=
  {| vm_help := false; vm_dir := None; vm_simtime := None;
     vm_with_stdp := None; vm_with_bcpnn := Some true; vm_winit := None;
     vm_kappa := None; vm_nbinputs := None; vm_size := None;
     vm_npostsyn := None; vm_ipre := Some 100; vm_ipost := None;
     vm_seed := None; vm_nomon := None |}.

(** [--nbinputs 3 --npostsyn 3], monitored indices left at 5. *)
Definition three_inputs : variables_map :=
  {| vm_help := false; vm_dir := None; vm_simtime := None;
     vm_with_stdp := None; vm_with_bcpnn := None; vm_winit := None;
     vm_kappa := None; vm_nbinputs := Some 3; vm_size := None;
     vm_npostsyn := Some 3; vm_ipre := None; vm_ipost := None;
     vm_seed := None; vm_nomon := None |}.

(** [--nbinputs 99] for [sim_bcpnn_1], whose monitored input unit is 99. *)
Definition sim1_99_inputs : SimBcpnn1.variables_map :=
  {| SimBcpnn1.vm_help := false; SimBcpnn1.vm_dir := None;
     SimBcpnn1.vm_simtime := None; SimBcpnn1.vm_sparseness := None;
     SimBcpnn1.vm_winit := None; SimBcpnn1.vm_winit2 := None;
     SimBcpnn1.vm_kappa := None; SimBcpnn1.vm_nbinputs := Some 99;
     SimBcpnn1.vm_size := None; SimBcpnn1.vm_seed := None;
     SimBcpnn1.vm_nomon := None |}.



(** Three ranks with different counts on every connection. *)
Definition three_ranks (ok : bool) : environment :=
  {| mpi_rank := 0; mpi_size := 3; run_ok := ok;
     nonzero := fun k r =>
       match k with
       | Sparse => 1200 + Z.of_nat r
       | STDP => 1300 + 2 * Z.of_nat r
       | Bcpnn => 1100 + 3 * Z.of_nat r
       end |}.

(** The fields of the pair rule that [main] sets, and the settings a
    trace makes, in order. *)
Inductive pair_rule_field :=
| field_A | field_B | field_min_weight | field_max_weight.

Definition pair_rule_setting (e : event)
  : option (pair_rule_field * handle * double) :=
  match e with
  | StdpSetA h v => Some (field_A, h, v)
  | StdpSetB h v => Some (field_B, h, v)
  | SetMinWeight h v => Some (field_min_weight, h, v)
  | SetMaxWeight h v => Some (field_max_weight, h, v)
  | _ => None
  end.

Definition pair_rule_settings (trace : list event)
  : list (pair_rule_field * handle * double) :=
  flat_map (fun e => match pair_rule_setting e with
                     | Some s => [s]
                     | None => []
                     end) trace.




(** The validation [main] performs before the kernel is invoked: the
    fan-in test, and with monitoring enabled the two index tests. *)
Definition reaches_run (l : locals) : bool :=
  negb (fan_in_exceeds l) &&
  (nomon l || negb (ipre_rejected l) && negb (ipost_rejected l)).

(** The configuration of a run in which control reaches the monitors of
    [main]: a configuration was handed on, the fan-in test passed,
    monitoring is enabled and both index tests passed. *)
Definition monitoring (args : parse_result variables_map) : option locals :=
  match configuration args with
  | Some l => if negb (nomon l) && reaches_run l then Some l else None
  | None => None
  end.

(** The line printed at rank 0 for a connection. *)
Definition report (k : connection_kind) (g : Z) : event :=
  match k with
  | Sparse => CerrNonPlastic g
  | STDP => CerrStdp g
  | Bcpnn => CerrBcpnn g
  end.

(** The handle [main] holds for a connection. *)
Definition connection_handle (l : locals) (k : connection_kind) : handle :=
  match k with
  | Sparse => 2%nat
  | STDP => 3%nat
  | Bcpnn => if with_stdp l then 4%nat else 3%nat
  end.

(** ** Vocabulary of the further properties *)

(** The configuration [sim_bcpnn_1] hands on, and what its handlers
    print. *)
Definition sim1_configuration
  (args : parse_result SimBcpnn1.variables_map) : option SimBcpnn1.locals :=
  match args with
  | po_parsed vm =>
      if SimBcpnn1.vm_help vm then None
      else Some (SimBcpnn1.read_options vm)
  | po_std_exception _ => None
  | po_unknown_exception => Some SimBcpnn1.initial_locals
  end.

Definition sim1_parse_events
  (args : parse_result SimBcpnn1.variables_map) : list event :=
  match args with
  | po_parsed _ => []
  | po_std_exception what => [CerrException what]
  | po_unknown_exception => [CerrUnknownException]
  end.

(** With monitoring enabled [sim_bcpnn_1] runs only past its two index
    tests. *)
Definition sim1_reaches_run (l : SimBcpnn1.locals) : bool :=
  SimBcpnn1.nomon l
  || negb (SimBcpnn1.ipre_rejected l) && negb (SimBcpnn1.ipost_rejected l).

Definition is_monitor (e : event) : bool :=
  match e with
  | NewPreTraceMonitor _ _ _ _ | NewPostTraceMonitor _ _ _ _
  | NewStateMonitor _ _ _ _ | NewTraceStateMonitor _ _ _ _
  | NewWeightMonitor _ _ _ _ _ _ | NewSpikeMonitor _ _ => true
  | _ => false
  end.

Definition is_cerr (e : event) : bool :=
  match e with
  | CerrException _ | CerrUnknownException | CerrFanIn | CerrSparseness _
  | CerrIndices _ _ | CerrExecutionTime
  | CerrNonPlastic _ | CerrStdp _ | CerrBcpnn _ => true
  | _ => false
  end.

(** Set-up and teardown of the kernel, the barrier and the run. *)
Definition is_lifecycle (e : event) : bool :=
  match e with
  | AurynInit _ _ | MpiBarrier | SysRun _ | AurynFree => true
  | _ => false
  end.

Definition lifecycle (trace : list event) : list event :=
  filter is_lifecycle trace.

(** The calls every rank makes alike: all but the lines on [std::cerr],
    the readings of the clock, and the value a rank contributes to a
    reduction. *)
Definition collective_call (e : event) : option event :=
  match e with
  | MpiReduceSum _ => Some (MpiReduceSum 0)
  | MpiWtime => None
  | _ => if is_cerr e then None else Some e
  end.

Definition collective (trace : list event) : list event :=
  flat_map (fun e => match collective_call e with
                     | Some c => [c]
                     | None => []
                     end) trace.

(** How the single-stage [main] ends, test by test. *)
Definition exit_status (args : parse_result variables_map)
  (env : environment) : halt :=
  match configuration args with
  | None => Return 1
  | Some l =>
      if fan_in_exceeds l then Exit 0
      else if negb (nomon l) && ipre_rejected l then Abort 4711
      else if negb (nomon l) && ipost_rejected l then Abort 4712
      else Return (if run_ok env then 0 else 1)
  end.

(** How the [main] of [sim_bcpnn_1] ends. *)
Definition sim1_exit_status (args : parse_result SimBcpnn1.variables_map)
  (env : environment) : halt :=
  match sim1_configuration args with
  | None => Return 1
  | Some l =>
      if negb (SimBcpnn1.nomon l) && (SimBcpnn1.nbinputs l <? 99)
      then Abort 4711
      else if negb (SimBcpnn1.nomon l) && (SimBcpnn1.size l <? 17)
      then Abort 4712
      else Return (if run_ok env then 0 else 1)
  end.

(** The populations a trace creates, with their sizes, and its
    connections with their ends, initial weight and sparseness. *)
Definition populations (trace : list event) : list (handle * Z) :=
  flat_map (fun e => match e with
                     | NewPoissonGroup h n _ | NewTIFGroup h n => [(h, n)]
                     | _ => []
                     end) trace.

Inductive initial_weight :=
| weight_float (w : float)
| weight_int (w : Z).

Record connection := {
  con_kind : connection_kind;
  con_handle : handle;
  con_src : handle;
  con_dst : handle;
  con_weight : initial_weight;
  con_sparseness : float
}.

Definition connections (trace : list event) : list connection :=
  flat_map (fun e =>
    match e with
    | NewSparseConnection h src dst w s =>
        [{| con_kind := Sparse; con_handle := h; con_src := src;
            con_dst := dst; con_weight := weight_float w;
            con_sparseness := s |}]
    | NewSTDPConnection h src dst w s _ _ =>
        [{| con_kind := STDP; con_handle := h; con_src := src;
            con_dst := dst; con_weight := weight_float w;
            con_sparseness := s |}]
    | NewBcpnnConnection h src dst w s _ _ _ _ _ =>
        [{| con_kind := Bcpnn; con_handle := h; con_src := src;
            con_dst := dst; con_weight := weight_int w;
            con_sparseness := s |}]
    | _ => []
    end) trace.

(** The gains set on an associative connection, in order. *)
Inductive gain := gain_w | gain_b.

Definition associative_settings (trace : list event)
  : list (gain * handle * double) :=
  flat_map (fun e => match e with
                     | SetWgain h v => [(gain_w, h, v)]
                     | SetBgain h v => [(gain_b, h, v)]
                     | _ => []
                     end) trace.

(** The time constants and refractory period an associative connection is
    created with. *)
Definition associative_constants (e : event)
  : option (double * double * double * double * float) :=
  match e with
  | NewBcpnnConnection _ _ _ _ _ t1 t2 t3 t4 r => Some (t1, t2, t3, t4, r)
  | _ => None
  end.

(** The file each monitor writes. *)
Definition monitor_files (trace : list event) : list string :=
  flat_map (fun e => match e with
                     | NewPreTraceMonitor _ _ _ f
                     | NewPostTraceMonitor _ _ _ f
                     | NewStateMonitor _ _ _ f
                     | NewTraceStateMonitor _ _ _ f
                     | NewWeightMonitor _ _ _ f _ _
                     | NewSpikeMonitor _ f => [f]
                     | _ => []
                     end) trace.

(** The files of the probes of the associative rule and of the two spike
    recorders, in the order [main] creates them. *)
Definition probe_files : list string :=
  ["zi"; "zj"; "pj"; "bj"; "pi"; "pij"; "wij"]%string.
Definition spike_files : list string := ["prspikes"; "pospikes"]%string.

(** The population and unit a probe is bound to, and for a weight probe
    the connection and the pair of units. *)
Definition probe_unit (e : event) : option (handle * Z) :=
  match e with
  | NewPreTraceMonitor src _ i _ | NewPostTraceMonitor src _ i _
  | NewStateMonitor src i _ _ | NewTraceStateMonitor src _ i _ =>
      Some (src, i)
  | _ => None
  end.

Definition weight_probe (e : event) : option (handle * Z * Z) :=
  match e with
  | NewWeightMonitor c i j _ _ _ => Some (c, i, j)
  | _ => None
  end.

(** Objects in the order of their creation; a handle is the position of
    its object. *)
Inductive object_kind :=
| population_object
| connection_object (k : connection_kind).

Definition is_population (objs : list object_kind) (h : handle) : bool :=
  match nth_error objs h with
  | Some population_object => true
  | _ => false
  end.

Definition is_connection (objs : list object_kind) (k : connection_kind)
  (h : handle) : bool :=
  match nth_error objs h, k with
  | Some (connection_object Sparse), Sparse
  | Some (connection_object STDP), STDP
  | Some (connection_object Bcpnn), Bcpnn => true
  | _, _ => false
  end.

(** One call against the objects created so far: [None] when it names an
    object that does not exist or is of the wrong kind, or creates one
    under a handle that is not the next free one; otherwise the objects
    after the call. *)
Definition bind_objects (objs : list object_kind) (e : event)
  : option (list object_kind) :=
  let fresh (h : handle) := Nat.eqb h (List.length objs) in
  let guard (b : bool) (r : list object_kind) :=
    if b then Some r else None in
  match e with
  | NewPoissonGroup h _ _ | NewTIFGroup h _ =>
      guard (fresh h) (objs ++ [population_object])
  | NewSparseConnection h src dst _ _ =>
      guard (fresh h && is_population objs src && is_population objs dst)
            (objs ++ [connection_object Sparse])
  | NewSTDPConnection h src dst _ _ _ _ =>
      guard (fresh h && is_population objs src && is_population objs dst)
            (objs ++ [connection_object STDP])
  | NewBcpnnConnection h src dst _ _ _ _ _ _ _ =>
      guard (fresh h && is_population objs src && is_population objs dst)
            (objs ++ [connection_object Bcpnn])
  | StdpSetA h _ | StdpSetB h _ | SetMinWeight h _ | SetMaxWeight h _ =>
      guard (is_connection objs STDP h) objs
  | SetWgain h _ | SetBgain h _ =>
      guard (is_connection objs Bcpnn h) objs
  | NewPreTraceMonitor src _ _ _ | NewPostTraceMonitor src _ _ _
  | NewStateMonitor src _ _ _ | NewTraceStateMonitor src _ _ _
  | NewSpikeMonitor src _ =>
      guard (is_population objs src) objs
  | NewWeightMonitor c _ _ _ _ _ =>
      guard (is_connection objs Bcpnn c) objs
  | GetNonzero k h =>
      guard (is_connection objs k h) objs
  | _ => Some objs
  end.

Fixpoint well_bound (objs : list object_kind) (trace : list event) : bool :=
  match trace with
  | [] => true
  | e :: rest =>
      match bind_objects objs e with
      | Some objs' => well_bound objs' rest
      | None => false
      end
  end.





(** The calls that handle a synapse count: query, reduction, report. *)
Definition handles_count (e : event) : bool :=
  match e with
  | GetNonzero _ _ | MpiReduceSum _
  | CerrNonPlastic _ | CerrStdp _ | CerrBcpnn _ => true
  | _ => false
  end.

(** What is done for each connection present, in the order of [main]. *)
Definition for_each_present (l : locals)
  (f : connection_kind -> list event) : list event :=
  flat_map (fun k => if present l k then f k else []) [Sparse; STDP; Bcpnn].

(** Further command lines. *)

(** [--nomon true --ipre 1000 --ipost -1] *)
Definition no_monitoring : variables_map :=
  {| vm_help := false; vm_dir := None; vm_simtime := None;
     vm_with_stdp := None; vm_with_bcpnn := Some true; vm_winit := None;
     vm_kappa := None; vm_nbinputs := None; vm_size := None;
     vm_npostsyn := None; vm_ipre := Some 1000; vm_ipost := Some (-1);
     vm_seed := None; vm_nomon := Some true |}.

(** [--with_stdp true --with_bcpnn true --npostsyn 30 --ipre 7 --ipost 3] *)
Definition both_rules : variables_map :=
  {| vm_help := false; vm_dir := None; vm_simtime := None;
     vm_with_stdp := Some true; vm_with_bcpnn := Some true;
     vm_winit := None; vm_kappa := None; vm_nbinputs := None;
     vm_size := None; vm_npostsyn := Some 30; vm_ipre := Some 7;
     vm_ipost := Some 3; vm_seed := None; vm_nomon := None |}.

(** [--ipre -1] *)
Definition negative_ipre : variables_map :=
  {| vm_help := false; vm_dir := None; vm_simtime := None;
     vm_with_stdp := None; vm_with_bcpnn := None; vm_winit := None;
     vm_kappa := None; vm_nbinputs := None; vm_size := None;
     vm_npostsyn := None; vm_ipre := Some (-1); vm_ipost := None;
     vm_seed := None; vm_nomon := None |}.


(** A rank other than the root, among four. *)
Definition third_of_four (ok : bool) : environment :=
  {| mpi_rank := 2; mpi_size := 4; run_ok := ok;
     nonzero := fun _ r => 500 + Z.of_nat r |}.

(** [--size 10] for [sim_bcpnn_1], whose monitored output unit is 17. *)
Definition sim1_10_outputs : SimBcpnn1.variables_map :=
  {| SimBcpnn1.vm_help := false; SimBcpnn1.vm_dir := None;
     SimBcpnn1.vm_simtime := None; SimBcpnn1.vm_sparseness := None;
     SimBcpnn1.vm_winit := None; SimBcpnn1.vm_winit2 := None;
     SimBcpnn1.vm_kappa := None; SimBcpnn1.vm_nbinputs := None;
     SimBcpnn1.vm_size := Some 10; SimBcpnn1.vm_seed := None;
     SimBcpnn1.vm_nomon := None |}.

(** * Properties *)

(** ** Single-precision conversion and division *)

Lemma digits2_pos_log2 (p : positive) :
  Zpos (digits2_pos p) = Z.succ (Z.log2 (Zpos p)).
Proof.
  assert (H : forall q, digits2_pos q = Pos.size q).
  { induction q; simpl; congruence. }
  rewrite H. destruct p; simpl; lia.
Qed.

Lemma digits_of_range (p : positive) (d : Z) :
  0 < d -> 2 ^ (d - 1) <= Zpos p < 2 ^ d -> Zpos (digits2_pos p) = d.
Proof.
  intros Hd H. rewrite digits2_pos_log2.
  rewrite (Z.log2_unique (Zpos p) (d - 1)); try lia.
  replace (Z.succ (d - 1)) with d by lia. lia.
Qed.

Lemma digits_range (p : positive) :
  2 ^ (Zpos (digits2_pos p) - 1) <= Zpos p < 2 ^ Zpos (digits2_pos p).
Proof.
  rewrite digits2_pos_log2.
  replace (Z.succ (Z.log2 (Z.pos p)) - 1) with (Z.log2 (Zpos p)) by lia.
  apply Z.log2_spec. lia.
Qed.

Lemma iter_xO (k p : positive) :
  Zpos (Pos.iter xO p k) = Zpos p * 2 ^ Zpos k.
Proof.
  induction k using Pos.peano_ind.
  - simpl. lia.
  - rewrite Pos.iter_succ. rewrite Pos2Z.inj_xO, IHk.
    rewrite Pos2Z.inj_succ, Z.pow_succ_r by lia. lia.
Qed.

Lemma fexp_single (e : Z) : -125 <= e -> fexp 24 128 e = e - 24.
Proof.
  intros He. unfold fexp, emin. apply Z.max_l.
  change (3 - 128 - 24) with (-149). lia.
Qed.

Lemma shr_fexp_fits (m : positive) (e : Z) (l : location) :
  2 ^ 23 <= Zpos m < 2 ^ 24 -> -149 <= e ->
  shr_fexp 24 128 (Zpos m) e l = (shr_record_of_loc (Zpos m) l, e).
Proof.
  intros Hm He. unfold shr_fexp, fexp, emin, Zdigits2.
  rewrite (digits_of_range m 24) by lia.
  replace (Z.max (24 + e - 24) (3 - 128 - 24) - e) with 0 by lia.
  reflexivity.
Qed.

Lemma shr_fexp_one_over (m : positive) (e : Z) (l : location) :
  2 ^ 24 <= Zpos m < 2 ^ 25 -> -150 <= e ->
  shr_fexp 24 128 (Zpos m) e l = (shr_1 (shr_record_of_loc (Zpos m) l), e + 1).
Proof.
  intros Hm He. unfold shr_fexp, fexp, emin, Zdigits2.
  rewrite (digits_of_range m 25) by lia.
  replace (Z.max (25 + e - 24) (3 - 128 - 24) - e) with 1 by lia.
  reflexivity.
Qed.

Lemma loc_of_record_of_loc m l :
  loc_of_shr_record (shr_record_of_loc m l) = l.
Proof. destruct l as [|[]]; reflexivity. Qed.

Lemma shr_m_record_of_loc m l : shr_m (shr_record_of_loc m l) = m.
Proof. destruct l as [|[]]; reflexivity. Qed.



Lemma binary_round_aux_split s mx ex lx :
  binary_round_aux 24 128 s mx ex lx =
  let '(mrs, e) := shr_fexp 24 128 mx ex lx in
  renormalise s (round_nearest_even (shr_m mrs) (loc_of_shr_record mrs)) e.
Proof. reflexivity. Qed.

Lemma renormalise_fits s (m : positive) e :
  2 ^ 23 <= Zpos m < 2 ^ 24 -> -149 <= e <= 104 ->
  renormalise s (Zpos m) e = S754_finite s m e.
Proof.
  intros Hm He. unfold renormalise.
  rewrite shr_fexp_fits by lia. cbn [shr_record_of_loc shr_m].
  replace (e <=? 128 - 24) with true by (symmetry; apply Z.leb_le; lia).
  reflexivity.
Qed.

Lemma renormalise_carry s e :
  -150 <= e <= 103 ->
  renormalise s (2 ^ 24) e = S754_finite s (2 ^ 23) (e + 1).
Proof.
  intros He. unfold renormalise.
  change (2 ^ 24) with (Zpos 16777216).
  rewrite shr_fexp_one_over by lia.
  cbn [shr_record_of_loc shr_1 shr_m].
  replace (e + 1 <=? 128 - 24) with true by (symmetry; apply Z.leb_le; lia).
  reflexivity.
Qed.

(** Renormalising a mantissa of 24 digits, or the value [2^24] that
    rounding up can reach. *)
Lemma renormalise_spec s (m1 : Z) e :
  2 ^ 23 <= m1 <= 2 ^ 24 -> -149 <= e <= 103 ->
  exists m k,
    renormalise s m1 e = S754_finite s m (e + k) /\
    2 ^ 23 <= Zpos m < 2 ^ 24 /\ 0 <= k <= 1 /\ Zpos m * 2 ^ k = m1.
Proof.
  intros Hm He.
  destruct (Z.eq_dec m1 (2 ^ 24)) as [-> | Hne].
  - exists (2 ^ 23)%positive, 1. rewrite renormalise_carry by lia.
    repeat split; try lia.
  - destruct m1 as [|m|m]; try lia.
    exists m, 0. rewrite renormalise_fits by lia.
    rewrite Z.add_0_r. repeat split; lia.
Qed.

Lemma float_of_Z_exact (p : Z) :
  0 < p < 2 ^ 24 ->
  exists P e,
    float_of_Z p = S754_finite false P e /\
    2 ^ 23 <= Zpos P < 2 ^ 24 /\ -23 <= e <= 0 /\
    Zpos P = p * 2 ^ (- e) /\
    Zpos (digits2_pos P) = 24 /\
    e = Z.log2 p - 23.
Proof.
  intros Hp. destruct p as [|p|p]; try lia.
  unfold float_of_Z, binary_normalize, binary_round, shl_align.
  pose proof (digits_range p) as Hd.
  pose proof (digits2_pos_log2 p) as Hl.
  set (d := Zpos (digits2_pos p)) in *.
  assert (1 <= d) by (unfold d; lia).
  assert (d <= 24).
  { destruct (Z_le_gt_dec d 24); [assumption|].
    assert (2 ^ 24 <= 2 ^ (d - 1)) by (apply Z.pow_le_mono_r; lia). lia. }
  rewrite fexp_single by lia. replace (d + 0 - 24) with (d - 24) by lia.
  destruct (d - 24 - 0) as [|k|k] eqn:Hk; try lia.
  - assert (Hd24 : d = 24) by lia. rewrite Hd24 in Hd.
    change (24 - 1) with 23 in Hd.
    exists p, 0. rewrite binary_round_aux_split, shr_fexp_fits by lia.
    cbn [shr_record_of_loc shr_m loc_of_shr_record round_nearest_even].
    rewrite renormalise_fits by lia.
    repeat split; lia.
  - assert (Hm : Zpos (Pos.iter xO p k) = Zpos p * 2 ^ (24 - d)).
    { rewrite iter_xO. f_equal. f_equal. lia. }
    assert (Hpow : 2 ^ (d - 1) * 2 ^ (24 - d) = 2 ^ 23).
    { rewrite <- Z.pow_add_r by lia. f_equal. lia. }
    assert (Hpow' : 2 ^ d * 2 ^ (24 - d) = 2 ^ 24).
    { rewrite <- Z.pow_add_r by lia. f_equal. lia. }
    assert (0 < 2 ^ (24 - d)) by (apply Z.pow_pos_nonneg; lia).
    assert (Hr : 2 ^ 23 <= Zpos (Pos.iter xO p k) < 2 ^ 24).
    { rewrite Hm. split; [rewrite <- Hpow | rewrite <- Hpow']; nia. }
    exists (Pos.iter xO p k), (d - 24).
    rewrite binary_round_aux_split, shr_fexp_fits by lia.
    cbn [shr_record_of_loc shr_m loc_of_shr_record round_nearest_even].
    rewrite renormalise_fits by lia.
    repeat split; try lia.
    + rewrite Hm. f_equal. f_equal. lia.
    + apply digits_of_range; lia.
Qed.


Lemma new_location_locates (N r : Z) :
  0 < N -> 0 <= r < N -> locates (new_location N r) r N.
Proof.
  intros HN Hr. unfold new_location, new_location_even, new_location_odd.
  destruct (Z.even N) eqn:Hev.
  - destruct (Z.eqb_spec r 0) as [-> | Hr0]; [reflexivity|].
    destruct (Z.compare_spec (2 * r) N); cbn [locates]; lia.
  - destruct (Z.eqb_spec r 0) as [-> | Hr0]; [reflexivity|].
    assert (Hodd : Z.odd N = true) by (rewrite <- Z.negb_even, Hev; reflexivity).
    apply Z.odd_spec in Hodd. destruct Hodd as [c Hc].
    destruct (Z.compare_spec (2 * r + 1) N); cbn [locates]; lia.
Qed.

Lemma round_nearest_even_spec (q r N : Z) (l : location) :
  0 < N -> 0 <= r < N -> locates l r N ->
  (round_nearest_even q l = q \/ round_nearest_even q l = q + 1) /\
  2 * Z.abs (round_nearest_even q l * N - (q * N + r)) <= N.
Proof.
  intros HN Hr Hl. destruct l as [|[]]; cbn [locates round_nearest_even] in *.
  - split; [left; reflexivity | lia].
  - destruct (Z.even q); split; auto; lia.
  - split; [left; reflexivity | lia].
  - split; [right; reflexivity | lia].
Qed.

Lemma div_core_single (P N : positive) (ex ey : Z) :
  2 ^ 23 <= Zpos P < 2 ^ 24 -> 2 ^ 23 <= Zpos N < 2 ^ 24 ->
  -23 <= ex <= 0 -> -23 <= ey <= 0 ->
  SFdiv_core_binary 24 128 (Zpos P) ex (Zpos N) ey =
  (Zpos P * 2 ^ 24 / Zpos N, ex - ey - 24,
   new_location (Zpos N) ((Zpos P * 2 ^ 24) mod Zpos N)).
Proof.
  intros HP HN Hex Hey. unfold SFdiv_core_binary, Zdigits2.
  rewrite (digits_of_range P 24), (digits_of_range N 24) by lia.
  rewrite fexp_single by lia.
  replace (Z.min (24 + ex - (24 + ey) - 24) (ex - ey)) with (ex - ey - 24)
    by lia.
  replace (ex - ey - (ex - ey - 24)) with 24 by lia.
  cbv beta iota zeta.
  rewrite Z.shiftl_mul_pow2 by lia.
  unfold Z.div, Z.modulo.
  destruct (Z.div_eucl (Zpos P * 2 ^ 24) (Zpos N)) as [q r].
  reflexivity.
Qed.

(** Rounding the quotient [q + r/N] of two 24-digit mantissas, in units of
    [2^e]: the result is a 24-digit mantissa [m] at exponent [e + k], at
    most half a unit of [2^(e+k)] away. *)
Lemma round_quotient (s : bool) (q r N e : Z) :
  2 ^ 23 <= q < 2 ^ 25 -> 0 < N -> 0 <= r < N -> -149 <= e <= 101 ->
  exists m k,
    binary_round_aux 24 128 s q e (new_location N r)
    = S754_finite s m (e + k) /\
    2 ^ 23 <= Zpos m < 2 ^ 24 /\ 0 <= k <= 2 /\
    2 * Z.abs (Zpos m * 2 ^ k * N - (q * N + r)) <= 2 ^ k * N.
Proof.
  intros Hq HN Hr He.
  pose proof (new_location_locates N r HN Hr) as Hloc.
  rewrite binary_round_aux_split.
  destruct (Z_lt_ge_dec q (2 ^ 24)) as [Hlt | Hge].
  - destruct q as [|q|q]; try lia.
    rewrite shr_fexp_fits by lia.
    rewrite shr_m_record_of_loc, loc_of_record_of_loc.
    destruct (round_nearest_even_spec (Zpos q) r N _ HN Hr Hloc) as [Hm1 Hd].
    destruct (renormalise_spec s (round_nearest_even (Zpos q) (new_location N r)) e)
      as (m & k & -> & Hm & Hk & Hv); try lia.
    exists m, k. rewrite Hv. repeat split; try lia.
    assert (Hk' : k = 0 \/ k = 1) by lia.
    destruct Hk' as [-> | ->]; change (2 ^ 0) with 1; change (2 ^ 1) with 2; lia.
  - destruct q as [|q|q]; try lia.
    rewrite shr_fexp_one_over by lia.
    set (l := new_location N r) in *.
    assert (Hhalf : exists m1,
      round_nearest_even (shr_m (shr_1 (shr_record_of_loc (Zpos q) l)))
        (loc_of_shr_record (shr_1 (shr_record_of_loc (Zpos q) l))) = m1 /\
      2 ^ 23 <= m1 <= 2 ^ 24 /\
      Z.abs (2 * m1 * N - (Zpos q * N + r)) <= N).
    { eexists. split; [reflexivity|].
      destruct q as [q|q|]; try lia;
        destruct l as [|[]];
        cbn [locates shr_record_of_loc shr_1 shr_m loc_of_shr_record
             round_nearest_even orb] in *;
        try destruct (Z.even (Zpos q)); lia. }
    destruct Hhalf as (m1 & -> & Hm1 & Hd).
    destruct (renormalise_spec s m1 (e + 1))
      as (m & k & -> & Hm & Hk & Hv); try lia.
    exists m, (1 + k). replace (e + (1 + k)) with (e + 1 + k) by lia.
    repeat split; try lia.
    assert (Hk' : k = 0 \/ k = 1) by lia.
    destruct Hk' as [-> | ->]; change (2 ^ 0) with 1 in *; change (2 ^ 1) with 2 in *;
      [change (2 ^ (1 + 0)) with 2 | change (2 ^ (1 + 1)) with 4]; lia.
Qed.


Lemma float_div_nearest (p n : Z) :
  0 < p <= n -> n < 2 ^ 24 ->
  nearest_to_quotient (float_div (float_of_Z p) (float_of_Z n)) p n.
Proof.
  intros Hp Hn.
  destruct (float_of_Z_exact p) as (P & ex & -> & HP & Hex & HPv & _ & Hexl);
    [lia|].
  destruct (float_of_Z_exact n) as (N & ey & -> & HN & Hey & HNv & _ & Heyl);
    [lia|].
  assert (Hle : ex <= ey).
  { pose proof (Z.log2_le_mono p n). lia. }
  unfold float_div, SFdiv. rewrite div_core_single by lia.
  cbn [xorb].
  pose proof (Z.div_mod (Zpos P * 2 ^ 24) (Zpos N)) as Hdm.
  pose proof (Z.mod_pos_bound (Zpos P * 2 ^ 24) (Zpos N)) as Hmod.
  set (q := Zpos P * 2 ^ 24 / Zpos N) in *.
  set (r := (Zpos P * 2 ^ 24) mod Zpos N) in *.
  assert (Hq : 2 ^ 23 <= q < 2 ^ 25).
  { change (2 ^ 23) with 8388608 in *. change (2 ^ 24) with 16777216 in *.
    change (2 ^ 25) with 33554432. nia. }
  destruct (round_quotient false q r (Zpos N) (ex - ey - 24))
    as (m & k & -> & Hm & Hk & Hd); try lia.
  exists m, (ex - ey - 24 + k). repeat split; try lia.
  set (T := 2 ^ k * 2 ^ (- ey)).
  assert (HT : 0 < T).
  { apply Z.mul_pos_pos; apply Z.pow_pos_nonneg; lia. }
  assert (Hsplit : 2 ^ (- ex) * 2 ^ 24 = 2 ^ (- (ex - ey - 24 + k)) * T).
  { unfold T. rewrite <- !Z.pow_add_r by lia. f_equal. lia. }
  assert (Hfac : Zpos m * 2 ^ k * Zpos N - (q * Zpos N + r)
                 = T * (Zpos m * n - p * 2 ^ (- (ex - ey - 24 + k)))).
  { replace (q * Zpos N + r) with (Zpos P * 2 ^ 24) by lia.
    rewrite HPv, HNv.
    replace (p * 2 ^ (- ex) * 2 ^ 24) with (p * (2 ^ (- ex) * 2 ^ 24)) by ring.
    rewrite Hsplit. unfold T. ring. }
  rewrite Hfac, Z.abs_mul, (Z.abs_eq T) in Hd by lia.
  replace (2 ^ k * Zpos N) with (T * n) in Hd by (rewrite HNv; unfold T; ring).
  apply (Z.mul_le_mono_pos_l _ _ T); [exact HT|].
  lia.
Qed.

Lemma sparseness_full : float_div (float_of_Z 100) (float_of_Z 100) = float_of_Z 1.
Proof. reflexivity. Qed.

(** Below [2^24] the comparison in single precision is the comparison of
    the integers. *)
Lemma float_gt_exact (a b : Z) :
  0 < a < 2 ^ 24 -> 0 < b < 2 ^ 24 ->
  float_gt (float_of_Z a) (float_of_Z b) = (b <? a).
Proof.
  intros Ha Hb.
  destruct (float_of_Z_exact a) as (P & ex & -> & HP & Hex & HPv & _ & Hexl);
    [lia|].
  destruct (float_of_Z_exact b) as (N & ey & -> & HN & Hey & HNv & _ & Heyl);
    [lia|].
  unfold float_gt, SFltb, SFcompare.
  destruct (Z.compare_spec ey ex) as [Heq | Hlt | Hgt].
  - rewrite Heq in HNv.
    assert (Hs : 0 < 2 ^ (- ex)) by (apply Z.pow_pos_nonneg; lia).
    change (Pos.compare_cont Eq N P) with (Zpos N ?= Zpos P).
    rewrite HPv, HNv. clear HPv HNv HP HN.
    generalize dependent (2 ^ (- ex)). intros s Hs.
    destruct (Z.compare_spec (b * s) (a * s)); symmetry;
      [apply Z.ltb_ge | apply Z.ltb_lt | apply Z.ltb_ge]; nia.
  - symmetry. apply Z.ltb_lt. apply Z.log2_lt_cancel. lia.
  - symmetry. apply Z.ltb_ge. apply Z.lt_le_incl, Z.log2_lt_cancel. lia.
Qed.

(** ** Running the harness symbolically *)

Ltac run_monad :=
  cbv [process boot bind ret stop exit auryn_abort call new read when
       events reads allocated app fst snd negb andb orb].

(** Case analysis over every test [experiment] makes. *)
Ltac unfold_experiment :=
  unfold experiment, MPI_Reduce, get_nonzero, sys_run.

Ltac split_cases l env :=
  destruct (fan_in_exceeds l) eqn:Hfan,
           (is_root env) eqn:Hroot,
           (with_stdp l) eqn:Hstdp,
           (with_bcpnn l) eqn:Hbcpnn,
           (nomon l) eqn:Hnomon,
           (ipre_rejected l) eqn:Hipre,
           (ipost_rejected l) eqn:Hipost;
  try solve [exfalso; congruence].

Ltac explore l env := unfold_experiment; split_cases l env; run_monad.

Ltac in_trace := cbn [In]; repeat (first [left; reflexivity | right]).

(** A call that a fully evaluated trace does not contain. *)
Ltac not_in_trace H :=
  cbn [In] in H; repeat (destruct H as [H|H]; [discriminate H|]); exact H.

Lemma main_parsed vm env :
  vm_help vm = false ->
  main (po_parsed vm) env = experiment (read_options vm) env.
Proof.
  intros H. unfold main, parse_stage. rewrite H. reflexivity.
Qed.

Lemma initial_fan_in : fan_in_exceeds initial_locals = false.
Proof. vm_compute. reflexivity. Qed.

(** A run that was handed a configuration is the body of [main] run on it,
    after whatever the handlers printed. *)
Lemma main_configured args env l :
  configuration args = Some l ->
  fst (process (main args env)) = fst (process (experiment l env)) /\
  events (snd (process (main args env)))
  = parse_events args ++ events (snd (process (experiment l env))) /\
  reads (snd (process (main args env)))
  = reads (snd (process (experiment l env))).
Proof.
  intros Hc. destruct args as [vm | what | ]; cbn [configuration] in Hc.
  - destruct (vm_help vm) eqn:Hh; [discriminate|].
    injection Hc as <-. rewrite main_parsed by assumption. auto.
  - discriminate.
  - injection Hc as <-.
    change (main po_unknown_exception env)
      with (call CerrUnknownException ;; experiment initial_locals env).
    cbn [parse_events].
    generalize initial_locals. intros l.
    explore l env; auto.
Qed.

(** A run that was handed none returns 1 before anything is set up. *)
Lemma main_unconfigured args env :
  configuration args = None ->
  process (main args env)
  = (Return 1,
     {| events := parse_events args; reads := []; allocated := 0 |}).
Proof.
  intros Hc. destruct args as [vm | what | ]; cbn [configuration] in Hc.
  - destruct (vm_help vm) eqn:Hh; [|discriminate].
    unfold process, main, parse_stage. rewrite Hh. reflexivity.
  - reflexivity.
  - discriminate.
Qed.





Lemma parse_events_inv args e :
  In e (parse_events args) ->
  e = CerrUnknownException \/ exists what, e = CerrException what.
Proof.
  destruct args as [vm | what | ]; cbn [parse_events In]; intros H.
  - contradiction.
  - destruct H as [<- | []]. right. exists what. reflexivity.
  - destruct H as [<- | []]. left. reflexivity.
Qed.

Lemma main_trace args env l e :
  configuration args = Some l ->
  In e (events (snd (process (main args env)))) <->
  In e (parse_events args) \/
  In e (events (snd (process (experiment l env)))).
Proof.
  intros Hc. destruct (main_configured args env l Hc) as (_ & -> & _).
  apply in_app_iff.
Qed.

Lemma pair_rule_settings_app a b :
  pair_rule_settings (a ++ b) = pair_rule_settings a ++ pair_rule_settings b.
Proof. unfold pair_rule_settings. apply flat_map_app. Qed.

Lemma parse_events_settings args : pair_rule_settings (parse_events args) = [].
Proof. destruct args; reflexivity. Qed.






(** * The harness *)

(** ** Fan-in validation *)

Lemma npostsyn_requested (vm : variables_map) :
  npostsyn (read_options vm) = float_of_Z (requested_fan_in vm).
Proof.
  unfold read_options, requested_fan_in. cbn [npostsyn].
  destruct (vm_npostsyn vm); reflexivity.
Qed.

Lemma float_gt_zero (a : Z) :
  0 < a < 2 ^ 24 -> float_gt (float_of_Z a) (float_of_Z 0) = true.
Proof.
  intros Ha.
  destruct (float_of_Z_exact a) as (P & ex & -> & _); [lia|].
  reflexivity.
Qed.

(** For a fan-in and a population size that single precision holds
    exactly, the test of [main] is the comparison of the two integers. *)
Lemma fan_in_test_exact (vm : variables_map) :
  0 < requested_fan_in vm < 2 ^ 24 ->
  0 <= nbinputs (read_options vm) < 2 ^ 24 ->
  fan_in_exceeds (read_options vm)
  = (nbinputs (read_options vm) <? requested_fan_in vm).
Proof.
  intros Hp Hn. unfold fan_in_exceeds. rewrite npostsyn_requested.
  destruct (Z.eq_dec (nbinputs (read_options vm)) 0) as [H0 | H0].
  - rewrite H0, float_gt_zero by assumption.
    symmetry. apply Z.ltb_lt. lia.
  - apply float_gt_exact; lia.
Qed.




(** For population sizes and fan-ins that single precision holds exactly,
    the test of [main] is the comparison of the two integers. *)
Lemma fan_in_exceeds_exact (vm : variables_map) (p : Z) :
  vm_npostsyn vm = Some p ->
  0 < p < 2 ^ 24 ->
  0 < nbinputs (read_options vm) < 2 ^ 24 ->
  fan_in_exceeds (read_options vm) = (nbinputs (read_options vm) <? p).
Proof.
  intros Hp Hr Hn. unfold fan_in_exceeds.
  replace (npostsyn (read_options vm)) with (float_of_Z p)
    by (unfold read_options; cbn [npostsyn]; rewrite Hp; reflexivity).
  apply float_gt_exact; assumption.
Qed.

(** ** Derived sparseness *)

Lemma experiment_sparseness (l : locals) (env : environment) :
  Forall (fun e => forall s, sparseness_of e = Some s ->
                             s = derived_sparseness l)
         (events (snd (process (experiment l env)))).
Proof.
  explore l env;
    repeat (constructor;
            [cbn [sparseness_of]; intros s Hs; try discriminate;
             injection Hs as <-; reflexivity|]);
    constructor.
Qed.

Lemma experiment_sparse_connection (l : locals) (env : environment) :
  fan_in_exceeds l = false ->
  In (NewSparseConnection 2%nat 0%nat 1%nat (winit l) (derived_sparseness l))
     (events (snd (process (experiment l env)))).
Proof.
  intros Hf. explore l env; in_trace.
Qed.

(** C2. When the fan-in [p] is given on the command line, every
    sparseness the run prints or hands to a connection is the
    single-precision quotient of [p] by the input population size [n]; the
    non-plastic connection is built with it whenever the fan-in check
    passes; for [0 < p <= n < 2^24] this quotient is the binary32 number
    nearest to [p/n] (relative error at most [2^-24]); and for
    [p = n = 100] it is exactly [1.0]. *)
Theorem sparseness_is_fan_in_over_inputs
  (vm : variables_map) (env : environment) (p : Z) :
  vm_help vm = false ->
  vm_npostsyn vm = Some p ->
  let n := nbinputs (read_options vm) in
  let s := float_div (float_of_Z p) (float_of_Z n) in
  let trace := events (snd (process (main (po_parsed vm) env))) in
  (forall e s', In e trace -> sparseness_of e = Some s' -> s' = s) /\
  (fan_in_exceeds (read_options vm) = false ->
   In (NewSparseConnection 2%nat 0%nat 1%nat (winit (read_options vm)) s) trace) /\
  (0 < p <= n -> n < 2 ^ 24 -> nearest_to_quotient s p n) /\
  (p = 100 -> n = 100 -> s = float_of_Z 1).
Proof.
  intros Hh Hp n s trace.
  assert (Hs : derived_sparseness (read_options vm) = s).
  { unfold derived_sparseness, s, n.
    replace (npostsyn (read_options vm)) with (float_of_Z p)
      by (unfold read_options; cbn [npostsyn]; rewrite Hp; reflexivity).
    reflexivity. }
  unfold trace. rewrite main_parsed by assumption.
  repeat split.
  - intros e s' Hin He. rewrite <- Hs.
    pose proof (experiment_sparseness (read_options vm) env) as Hall.
    rewrite Forall_forall in Hall. exact (Hall e Hin s' He).
  - intros Hf. rewrite <- Hs. apply experiment_sparse_connection, Hf.
  - intros Hr Hn. apply float_div_nearest; assumption.
  - intros -> Hn. unfold s. rewrite Hn. reflexivity.
Qed.

Lemma sparseness_witness :
  vm_help fan_in_100 = false /\
  vm_npostsyn fan_in_100 = Some 100 /\
  In (NewSparseConnection 2%nat 0%nat 1%nat (winit (read_options fan_in_100))
        (float_of_Z 1))
     (events (snd (process (main (po_parsed fan_in_100)
                                 (single_rank true))))) /\
  nearest_to_quotient (float_of_Z 1) 100 100.
Proof.
  destruct (sparseness_is_fan_in_over_inputs fan_in_100 (single_rank true)
              100 eq_refl eq_refl) as (_ & Hcon & Hnear & Hone).
  split; [reflexivity|]. split; [reflexivity|]. split.
  - apply Hcon. reflexivity.
  - apply Hnear.
    + cbv. split; [reflexivity | discriminate].
    + reflexivity.
Defined.

(** ** Pair rule *)

Lemma experiment_pair_rule (l : locals) (env : environment) :
  with_stdp l = true ->
  pair_rule_settings (events (snd (process (experiment l env))))
  = (if fan_in_exceeds l then []
     else [(field_A, 3%nat, stdp_A); (field_B, 3%nat, stdp_B);
           (field_min_weight, 3%nat, double_of_Z 0);
           (field_max_weight, 3%nat, double_of_Z 1)]) /\
  (fan_in_exceeds l = false ->
   In (NewSTDPConnection 3%nat 0%nat 1%nat (winit l) (derived_sparseness l)
         tau_pre tau_post)
      (events (snd (process (experiment l env))))).
Proof.
  intros Hs.
  explore l env;
    (split; [reflexivity | intros H; first [discriminate H | in_trace]]).
Qed.

(** C3. When the pair rule is selected, the settings made on the STDP
    connection are exactly these four, in this order:
    [A = -1.20*tau_post/tau_pre*eta], [B = eta], minimum weight 0 and
    maximum weight 1 (none at all in a run stopped by the fan-in check,
    which creates no connection).  With [tau_pre = tau_post = 0.02] and
    [eta = 1e-3], the values of [main], [A] is the double nearest to
    [-1.2e-3] and [B] is [1e-3]. *)
Theorem pair_rule_coefficients
  (args : parse_result variables_map) (env : environment) (l : locals) :
  configuration args = Some l ->
  with_stdp l = true ->
  let trace := events (snd (process (main args env))) in
  pair_rule_settings trace
  = (if fan_in_exceeds l then []
     else [(field_A, 3%nat,
            double_mul
              (double_div
                 (double_mul (SFopp (double_literal 120 2)) tau_post)
                 tau_pre)
              eta);
           (field_B, 3%nat, eta);
           (field_min_weight, 3%nat, double_of_Z 0);
           (field_max_weight, 3%nat, double_of_Z 1)]) /\
  (fan_in_exceeds l = false ->
   In (NewSTDPConnection 3%nat 0%nat 1%nat (winit l) (derived_sparseness l)
         tau_pre tau_post) trace) /\
  tau_pre = double_literal 2 2 /\
  tau_post = double_literal 2 2 /\
  eta = double_literal 1 3 /\
  double_mul
    (double_div (double_mul (SFopp (double_literal 120 2)) tau_post) tau_pre)
    eta
  = SFopp (double_literal 12 4).
Proof.
  intros Hc Hs trace.
  destruct (experiment_pair_rule l env Hs) as [Hset Hnew].
  destruct (main_configured args env l Hc) as (_ & Hev & _).
  unfold trace. rewrite Hev. split; [|split].
  - rewrite pair_rule_settings_app, parse_events_settings. exact Hset.
  - intros Hf. apply in_or_app. right. exact (Hnew Hf).
  - repeat split; reflexivity.
Qed.

Lemma pair_rule_witness :
  configuration (po_parsed pair_rule) = Some (read_options pair_rule) /\
  with_stdp (read_options pair_rule) = true /\
  pair_rule_settings
    (events (snd (process (main (po_parsed pair_rule) (single_rank true)))))
  = [(field_A, 3%nat, SFopp (double_literal 12 4));
     (field_B, 3%nat, double_literal 1 3);
     (field_min_weight, 3%nat, double_of_Z 0);
     (field_max_weight, 3%nat, double_of_Z 1)] /\
  In (NewSTDPConnection 3%nat 0%nat 1%nat (winit (read_options pair_rule))
        (float_of_Z 1) tau_pre tau_post)
     (events (snd (process (main (po_parsed pair_rule) (single_rank true))))).
Proof.
  split; [reflexivity|]. split; [reflexivity|].
  destruct (pair_rule_coefficients
              (po_parsed pair_rule) (single_rank true)
              (read_options pair_rule) eq_refl eq_refl) as (Hset & Hnew & _).
  split; [exact Hset | exact (Hnew eq_refl)].
Defined.

(** ** Monitored unit indices *)

(** C4. The index checks of both harnesses reject an index only when it
    is greater than the population size.  With 100 inputs and
    [--ipre 100] the single-stage harness passes its check, runs to the
    end and binds a trace monitor and weight monitors to input unit 100 of
    a population whose units are 0 to 99; with [--nbinputs 99] the
    two-stage harness binds its trace monitor to unit 99 of a population
    of 99 units. *)
Theorem monitored_index_equal_to_size_is_bound :
  (let r := process (main (po_parsed ipre_100) (single_rank true)) in
   ipre_rejected (read_options ipre_100) = false /\
   fst r = Return 0 /\
   In (NewPoissonGroup 0%nat 100 (double_of_Z 20)) (events (snd r)) /\
   In (NewPreTraceMonitor 0%nat tau_z_pr 100 "zi") (events (snd r)) /\
   In (NewWeightMonitor 3%nat 100 5 "wij" (double_literal 1 2) 0)
      (events (snd r))) /\
  (let r := process (SimBcpnn1.main (po_parsed sim1_99_inputs)
                                    (single_rank true)) in
   SimBcpnn1.ipre_rejected (SimBcpnn1.read_options sim1_99_inputs) = false /\
   fst r = Return 0 /\
   In (NewTIFGroup 1%nat 99) (events (snd r)) /\
   In (NewTraceStateMonitor 1%nat SimBcpnn1.tau_z_pr 99 "zi")
      (events (snd r))).
Proof.
  vm_compute; repeat split; repeat (first [left; reflexivity | right]).
Qed.

(** ** Exceptions while parsing options *)

(** C7. In both harnesses an exception that is not derived from
    [std::exception] is caught and its message printed, but the handler
    does not return: the run goes on with the initial values of the
    variables, builds the network, invokes the kernel and, when the kernel
    succeeds, returns status 0. *)
Theorem unknown_exception_falls_through :
  (let r := process (main po_unknown_exception (single_rank true)) in
   fst r = Return 0 /\
   In CerrUnknownException (events (snd r)) /\
   In (NewPoissonGroup 0%nat 100 (double_of_Z 20)) (events (snd r)) /\
   In (SysRun (double_of_Z 10)) (events (snd r))) /\
  (let r := process (SimBcpnn1.main po_unknown_exception
                                    (single_rank true)) in
   fst r = Return 0 /\
   In CerrUnknownException (events (snd r)) /\
   In (NewPoissonGroup 0%nat 100 (double_of_Z 20)) (events (snd r)) /\
   In (SysRun (double_of_Z 10)) (events (snd r))).
Proof.
  vm_compute; repeat split; repeat (first [left; reflexivity | right]).
Qed.

(** The sibling handler does return 1. *)
Lemma std_exception_returns_1 (what : string) (env : environment) :
  process (main (po_std_exception what) env)
  = (Return 1,
     {| events := [CerrException what]; reads := []; allocated := 0 |}) /\
  process (SimBcpnn1.main (po_std_exception what) env)
  = (Return 1,
     {| events := [CerrException what]; reads := []; allocated := 0 |}).
Proof. split; reflexivity. Qed.

(** ** Conditionally assigned variables *)

Lemma experiment_reads (l : locals) (env : environment) :
  (forall v, fst (process (experiment l env)) <> Fault v) /\
  Forall (fun v => assigned_under l env v = true)
         (reads (snd (process (experiment l env)))).
Proof.
  explore l env;
    (split;
     [intros v; discriminate
     |repeat (constructor;
              [cbn [assigned_under andb];
               rewrite ?Hroot, ?Hstdp, ?Hbcpnn; reflexivity|]);
      constructor]).
Qed.

(** C10. No run of [main] reads a conditionally assigned variable that
    holds nothing; and every read of [stdp_con] happens under [with_stdp],
    every read of [bcpnn_con] under [with_bcpnn], every read of [gnsyn] at
    rank 0, and every read of [stdp_gnsyn] or [bcpnn_gnsyn] at rank 0 under
    the flag that guarded its reduction. *)
Theorem conditional_variables_assigned_before_use
  (args : parse_result variables_map) (env : environment) :
  (forall v, fst (process (main args env)) <> Fault v) /\
  (forall v, In v (reads (snd (process (main args env)))) ->
             exists l, configuration args = Some l /\
                       assigned_under l env v = true).
Proof.
  destruct (configuration args) as [l|] eqn:Hc.
  - destruct (main_configured args env l Hc) as (-> & _ & ->).
    destruct (experiment_reads l env) as [Hfault Hreads].
    split; [exact Hfault|].
    intros v Hv. exists l. split; [reflexivity|].
    rewrite Forall_forall in Hreads. exact (Hreads v Hv).
  - rewrite main_unconfigured by assumption. cbn [fst snd reads In].
    split; [intros v; discriminate | intros v []].
Qed.

Lemma conditional_variables_witness :
  In var_stdp_con
     (reads (snd (process (main (po_parsed pair_rule) (single_rank true))))) /\
  exists l, configuration (po_parsed pair_rule) = Some l /\
            assigned_under l (single_rank true) var_stdp_con = true.
Proof.
  assert (Hin : In var_stdp_con
     (reads (snd (process (main (po_parsed pair_rule)
                                (single_rank true)))))).
  { vm_compute. left. reflexivity. }
  split; [exact Hin|].
  exact (proj2 (conditional_variables_assigned_before_use
                  (po_parsed pair_rule) (single_rank true))
               var_stdp_con Hin).
Defined.

(** ** Determinism of the configuration layer *)

Lemma experiment_parameters (l : locals) (env : environment) :
  derived_parameters (events (snd (process (experiment l env))))
  = derived_parameters
      (events (snd (process (experiment l (single_rank true))))).
Proof.
  unfold_experiment.
  change (is_root (single_rank true)) with true.
  split_cases l env; run_monad;
    cbv [derived_parameters filter sets_derived_parameter]; reflexivity.
Qed.

(** C8. Two runs on the same command line make the same calls that fix
    derived parameters (the sparseness of each connection, the
    coefficients and weight bounds of the pair rule, the gains of the
    associative rule), with the same values and in the same order,
    whatever the rank, the number of ranks, the kernel's result and the
    synapse counts of the two runs. *)
Theorem derived_parameters_deterministic
  (args : parse_result variables_map) (env1 env2 : environment) :
  derived_parameters (events (snd (process (main args env1))))
  = derived_parameters (events (snd (process (main args env2)))).
Proof.
  destruct (configuration args) as [l|] eqn:Hc.
  - destruct (main_configured args env1 l Hc) as (_ & -> & _).
    destruct (main_configured args env2 l Hc) as (_ & -> & _).
    unfold derived_parameters. rewrite !filter_app.
    f_equal.
    change (filter sets_derived_parameter ?t) with (derived_parameters t).
    rewrite (experiment_parameters l env1), (experiment_parameters l env2).
    reflexivity.
  - rewrite !main_unconfigured by assumption. reflexivity.
Qed.

(** ** Recorders *)

Lemma experiment_monitoring (l : locals) (env : environment) :
  let trace := events (snd (process (experiment l env))) in
  if negb (nomon l) && reaches_run l
  then In (NewPoissonGroup 0%nat (nbinputs l) (kappa l)) trace /\
       In (NewTIFGroup 1%nat (size l)) trace /\
       In (NewSpikeMonitor 0%nat "prspikes") trace /\
       In (NewSpikeMonitor 1%nat "pospikes") trace /\
       existsb is_probe trace = with_bcpnn l
  else existsb is_monitor trace = false.
Proof.
  unfold reaches_run.
  explore l env;
    first [reflexivity
          |split; [in_trace|]; split; [in_trace|]; split; [in_trace|];
           split; [in_trace | reflexivity]].
Qed.

Lemma parse_events_no_monitor args :
  existsb is_monitor (parse_events args) = false /\
  existsb is_probe (parse_events args) = false.
Proof. destruct args; split; reflexivity. Qed.

(** C9. In every run whose control reaches the monitors of [main] (a
    configuration was handed on, the fan-in test passed, monitoring is
    enabled and both index tests passed) the spike recorders of the input
    and of the output population are attached, whatever the plasticity
    flags are, and a trace or weight probe is attached exactly when the
    associative rule is selected.  In every other run no monitor at all is
    attached. *)
Theorem spike_recorders_when_validation_passes
  (args : parse_result variables_map) (env : environment) :
  let trace := events (snd (process (main args env))) in
  match monitoring args with
  | Some l =>
      In (NewPoissonGroup 0%nat (nbinputs l) (kappa l)) trace /\
      In (NewTIFGroup 1%nat (size l)) trace /\
      In (NewSpikeMonitor 0%nat "prspikes") trace /\
      In (NewSpikeMonitor 1%nat "pospikes") trace /\
      existsb is_probe trace = with_bcpnn l
  | None => existsb is_monitor trace = false
  end.
Proof.
  intros trace. unfold trace, monitoring.
  destruct (parse_events_no_monitor args) as [Hm Hp].
  destruct (configuration args) as [l|] eqn:Hc.
  - destruct (main_configured args env l Hc) as (_ & -> & _).
    pose proof (experiment_monitoring l env) as H. cbv zeta in H.
    destruct (negb (nomon l) && reaches_run l).
    + destruct H as (H1 & H2 & H3 & H4 & H5).
      rewrite existsb_app, Hp, H5.
      repeat (split; [apply in_or_app; right; assumption|]).
      reflexivity.
    + rewrite existsb_app, Hm, H. reflexivity.
  - rewrite main_unconfigured by assumption. exact Hm.
Qed.

Lemma spike_recorders_witness :
  monitoring (po_parsed pair_rule) = Some (read_options pair_rule) /\
  with_bcpnn (read_options pair_rule) = false /\
  In (NewSpikeMonitor 0%nat "prspikes")
     (events (snd (process (main (po_parsed pair_rule)
                                 (single_rank true))))) /\
  In (NewSpikeMonitor 1%nat "pospikes")
     (events (snd (process (main (po_parsed pair_rule)
                                 (single_rank true))))) /\
  existsb is_probe
     (events (snd (process (main (po_parsed pair_rule)
                                 (single_rank true))))) = false.
Proof.
  split; [reflexivity|]. split; [reflexivity|].
  pose proof (spike_recorders_when_validation_passes
                (po_parsed pair_rule) (single_rank true)) as H.
  change (monitoring (po_parsed pair_rule))
    with (Some (read_options pair_rule)) in H.
  cbv zeta in H. destruct H as (_ & _ & H1 & H2 & H3).
  split; [exact H1|]. split; [exact H2|]. exact H3.
Defined.

(** ** Kernel failure *)



(** ** Global synapse counts *)








(** * Further properties of the single-stage harness *)

(** ** How a run ends *)

Lemma experiment_exit_status (l : locals) (env : environment) :
  fst (process (experiment l env))
  = if fan_in_exceeds l then Exit 0
    else if negb (nomon l) && ipre_rejected l then Abort 4711
    else if negb (nomon l) && ipost_rejected l then Abort 4712
    else Return (if run_ok env then 0 else 1).
Proof. explore l env; reflexivity. Qed.

(** X1. [main] ends in one of five ways, decided in this order: no
    configuration (help request or [std::exception]) returns 1; when the
    test [npostsyn>nbinputs], made in single precision, holds, it exits
    with 0; with monitoring enabled a rejected input index aborts with
    4711, then a rejected output index with 4712; otherwise it returns 0 or
    1 as the kernel succeeded or failed.  For a fan-in between 1 and
    [2^24 - 1] and an input population size between 0 and [2^24 - 1] the
    first test is the comparison of the two integers. *)
Theorem main_exit_status
  (args : parse_result variables_map) (env : environment) :
  fst (process (main args env)) = exit_status args env /\
  (forall vm,
     args = po_parsed vm ->
     vm_help vm = false ->
     0 < requested_fan_in vm < 2 ^ 24 ->
     0 <= nbinputs (read_options vm) < 2 ^ 24 ->
     configuration args = Some (read_options vm) /\
     fan_in_exceeds (read_options vm)
     = (nbinputs (read_options vm) <? requested_fan_in vm)).
Proof.
  split.
  - unfold exit_status. destruct (configuration args) as [l|] eqn:Hc.
    + destruct (main_configured args env l Hc) as (-> & _).
      apply experiment_exit_status.
    + rewrite main_unconfigured by assumption. reflexivity.
  - intros vm -> Hh Hp Hn. split.
    + cbn [configuration]. rewrite Hh. reflexivity.
    + apply fan_in_test_exact; assumption.
Qed.

Lemma exit_status_witness :
  fst (process (main (po_parsed fan_in_150) (single_rank true))) = Exit 0 /\
  fan_in_exceeds (read_options fan_in_150)
  = (nbinputs (read_options fan_in_150) <? requested_fan_in fan_in_150).
Proof.
  assert (Hp : 0 < requested_fan_in fan_in_150 < 2 ^ 24)
    by (split; reflexivity).
  assert (Hn : 0 <= nbinputs (read_options fan_in_150) < 2 ^ 24)
    by (vm_compute; split; [discriminate | reflexivity]).
  destruct (main_exit_status (po_parsed fan_in_150) (single_rank true))
    as [Hs Hi].
  split.
  - rewrite Hs. vm_compute. reflexivity.
  - exact (proj2 (Hi fan_in_150 eq_refl eq_refl Hp Hn)).
Defined.

(** ** Aborted runs *)

Lemma existsb_parse_events (f : event -> bool) args :
  (forall what, f (CerrException what) = false) ->
  f CerrUnknownException = false ->
  existsb f (parse_events args) = false.
Proof.
  intros H1 H2. destruct args; cbn [parse_events existsb]; rewrite ?H1, ?H2;
    reflexivity.
Qed.

Lemma filter_parse_events (f : event -> bool) args :
  (forall what, f (CerrException what) = false) ->
  f CerrUnknownException = false ->
  filter f (parse_events args) = [].
Proof.
  intros H1 H2. destruct args; cbn [parse_events filter]; rewrite ?H1, ?H2;
    reflexivity.
Qed.

Lemma experiment_abort (l : locals) (env : environment) (c : Z) :
  fst (process (experiment l env)) = Abort c ->
  (c = 4711 \/ c = 4712) /\
  existsb is_monitor (events (snd (process (experiment l env)))) = false /\
  lifecycle (events (snd (process (experiment l env))))
  = [AurynInit (dir l) "sim_bcpnn"] /\
  In (NewSparseConnection 2%nat 0%nat 1%nat (winit l) (derived_sparseness l))
     (events (snd (process (experiment l env)))).
Proof.
  explore l env; intros H; try discriminate H;
    injection H as <-;
    (split; [auto | split; [reflexivity | split; [reflexivity | in_trace]]]).
Qed.

(** X2. A run aborted by an index check (4711 or 4712 and no other
    code) has already initialised the kernel and built the network, but it
    has created no monitor, never reaches the barrier or the kernel run,
    and does not call [auryn_free]. *)
Theorem abort_after_network_before_monitors
  (args : parse_result variables_map) (env : environment) (c : Z) :
  fst (process (main args env)) = Abort c ->
  exists l,
    configuration args = Some l /\
    (c = 4711 \/ c = 4712) /\
    existsb is_monitor (events (snd (process (main args env)))) = false /\
    lifecycle (events (snd (process (main args env))))
    = [AurynInit (dir l) "sim_bcpnn"] /\
    In (NewSparseConnection 2%nat 0%nat 1%nat (winit l)
          (derived_sparseness l))
       (events (snd (process (main args env)))).
Proof.
  intros H. destruct (configuration args) as [l|] eqn:Hc.
  - exists l. split; [reflexivity|].
    destruct (main_configured args env l Hc) as (Hst & Hev & _).
    rewrite Hst in H.
    destruct (experiment_abort l env c H) as (Hc' & Hmon & Hlife & Hcon).
    rewrite Hev. split; [exact Hc'|]. split; [|split].
    + rewrite existsb_app, Hmon, existsb_parse_events; reflexivity.
    + unfold lifecycle. rewrite filter_app, filter_parse_events by reflexivity.
      exact Hlife.
    + apply in_or_app. right. exact Hcon.
  - rewrite main_unconfigured in H by assumption. discriminate H.
Qed.

Lemma abort_witness :
  fst (process (main (po_parsed three_inputs) (single_rank true)))
  = Abort 4711 /\
  existsb is_monitor
    (events (snd (process (main (po_parsed three_inputs)
                                (single_rank true))))) = false.
Proof.
  assert (H : fst (process (main (po_parsed three_inputs)
                                 (single_rank true))) = Abort 4711).
  { vm_compute. reflexivity. }
  split; [exact H|].
  destruct (abort_after_network_before_monitors
              (po_parsed three_inputs) (single_rank true) 4711 H)
    as (l & _ & _ & Hmon & _).
  exact Hmon.
Defined.

(** ** The index tests as comparisons of integers *)

Lemma unsigned_lt_int (n i : Z) :
  0 <= n < 2 ^ 31 -> - 2 ^ 31 <= i < 2 ^ 31 ->
  (n <? int_to_unsigned i) = (i <? 0) || (n <? i).
Proof.
  intros Hn Hi. unfold int_to_unsigned.
  destruct (Z.ltb_spec i 0) as [Hneg | Hpos]; cbn [orb].
  - apply Z.ltb_lt.
    replace i with (i + 2 ^ 32 + (-1) * 2 ^ 32) by lia.
    rewrite Z.mod_add by lia. rewrite Z.mod_small; lia.
  - rewrite Z.mod_small by lia. reflexivity.
Qed.

(** X3. For population sizes below [2^31], the index tests reject
    exactly the negative indices and the indices greater than the
    population size: an index equal to the size passes, a negative one
    does not (it is compared as a large unsigned number). *)
Theorem index_tests_on_integers (l : locals) :
  0 <= nbinputs l < 2 ^ 31 -> 0 <= size l < 2 ^ 31 ->
  - 2 ^ 31 <= ipre l < 2 ^ 31 -> - 2 ^ 31 <= ipost l < 2 ^ 31 ->
  ipre_rejected l = (ipre l <? 0) || (nbinputs l <? ipre l) /\
  ipost_rejected l = (ipost l <? 0) || (size l <? ipost l).
Proof.
  intros Hn Hs Hi Ho. unfold ipre_rejected, ipost_rejected.
  split; apply unsigned_lt_int; assumption.
Qed.

Lemma index_tests_witness :
  ipre_rejected (read_options negative_ipre) = true /\
  ipost_rejected (read_options negative_ipre) = false.
Proof.
  assert (Hn : 0 <= nbinputs (read_options negative_ipre) < 2 ^ 31)
    by (vm_compute; split; congruence).
  assert (Hs : 0 <= size (read_options negative_ipre) < 2 ^ 31)
    by (vm_compute; split; congruence).
  assert (Hi : - 2 ^ 31 <= ipre (read_options negative_ipre) < 2 ^ 31)
    by (vm_compute; split; congruence).
  assert (Ho : - 2 ^ 31 <= ipost (read_options negative_ipre) < 2 ^ 31)
    by (vm_compute; split; congruence).
  destruct (index_tests_on_integers (read_options negative_ipre)
              Hn Hs Hi Ho) as [Hpre Hpost].
  rewrite Hpre, Hpost. split; reflexivity.
Defined.

(** ** Monitoring switched off *)

Lemma experiment_no_monitoring (l : locals) (env : environment) :
  nomon l = true ->
  existsb is_monitor (events (snd (process (experiment l env)))) = false /\
  (In (SysRun (simtime l)) (events (snd (process (experiment l env)))) <->
   fan_in_exceeds l = false).
Proof.
  intros Hn.
  explore l env;
    (split; [reflexivity|]);
    (split; intros H;
     [first [reflexivity | exfalso; not_in_trace H]
     |first [discriminate H | in_trace]]).
Qed.

(** X4. With [--nomon true] no monitor is created and the monitored
    indices are not tested: no run aborts, and the kernel is invoked
    whenever the fan-in check passes, whatever [ipre] and [ipost] are. *)
Theorem no_monitoring_no_index_tests
  (args : parse_result variables_map) (env : environment) (l : locals) :
  configuration args = Some l ->
  nomon l = true ->
  existsb is_monitor (events (snd (process (main args env)))) = false /\
  (forall c, fst (process (main args env)) <> Abort c) /\
  (In (SysRun (simtime l)) (events (snd (process (main args env)))) <->
   fan_in_exceeds l = false).
Proof.
  intros Hc Hn.
  destruct (main_configured args env l Hc) as (Hst & Hev & _).
  destruct (experiment_no_monitoring l env Hn) as [Hmon Hrun].
  split; [|split].
  - rewrite Hev, existsb_app, Hmon, existsb_parse_events; reflexivity.
  - intros c. rewrite Hst, experiment_exit_status, Hn. cbn [negb andb].
    destruct (fan_in_exceeds l); discriminate.
  - rewrite <- Hrun. split; intros H.
    + apply (main_trace args env l _ Hc) in H. destruct H as [H | H];
        [|exact H].
      apply parse_events_inv in H. destruct H as [H | [what H]];
        discriminate H.
    + apply (main_trace args env l _ Hc). right. exact H.
Qed.

Lemma no_monitoring_witness :
  configuration (po_parsed no_monitoring) = Some (read_options no_monitoring) /\
  nomon (read_options no_monitoring) = true /\
  ipre_rejected (read_options no_monitoring) = true /\
  In (SysRun (simtime (read_options no_monitoring)))
     (events (snd (process (main (po_parsed no_monitoring)
                                 (single_rank true))))).
Proof.
  split; [reflexivity|]. split; [reflexivity|]. split; [reflexivity|].
  destruct (no_monitoring_no_index_tests
              (po_parsed no_monitoring) (single_rank true)
              (read_options no_monitoring) eq_refl eq_refl) as (_ & _ & Hrun).
  apply Hrun. reflexivity.
Defined.

(** ** Order of the calls *)

Lemma experiment_lifecycle (l : locals) (env : environment) :
  lifecycle (events (snd (process (experiment l env))))
  = if fan_in_exceeds l then []
    else AurynInit (dir l) "sim_bcpnn"
         :: (if reaches_run l
             then [MpiBarrier; SysRun (simtime l); AurynFree]
             else []).
Proof. unfold reaches_run. explore l env; reflexivity. Qed.

(** X5. The kernel is initialised once, before everything else, unless
    the run is stopped by the fan-in check or gets no configuration; the
    barrier, the single invocation of the kernel and [auryn_free] follow in
    this order exactly when validation passes, and a run stopped by an
    index check makes none of the three. *)
Theorem main_lifecycle
  (args : parse_result variables_map) (env : environment) :
  lifecycle (events (snd (process (main args env))))
  = match configuration args with
    | None => []
    | Some l =>
        if fan_in_exceeds l then []
        else AurynInit (dir l) "sim_bcpnn"
             :: (if reaches_run l
                 then [MpiBarrier; SysRun (simtime l); AurynFree]
                 else [])
    end.
Proof.
  destruct (configuration args) as [l|] eqn:Hc.
  - destruct (main_configured args env l Hc) as (_ & -> & _).
    unfold lifecycle. rewrite filter_app.
    replace (filter is_lifecycle (parse_events args)) with (@nil event)
      by (destruct args; reflexivity).
    apply experiment_lifecycle.
  - rewrite main_unconfigured by assumption. destruct args; reflexivity.
Qed.

(** ** Objects and the calls that name them *)

Lemma well_bound_parse_events objs args t :
  well_bound objs (parse_events args ++ t) = well_bound objs t.
Proof. destruct args; reflexivity. Qed.

Lemma experiment_well_bound (l : locals) (env : environment) :
  well_bound [] (events (snd (process (experiment l env)))) = true.
Proof. explore l env; reflexivity. Qed.

(** X6. In every run each object is created under the next free
    handle, and every call names objects created before it and of the kind
    it needs: connections join populations, the pair-rule settings go to
    the STDP connection, the gains and the weight monitors to the
    associative connection, the other monitors to populations, and each
    count is queried on the connection of its kind. *)
Theorem calls_name_existing_objects
  (args : parse_result variables_map) (env : environment) :
  well_bound [] (events (snd (process (main args env)))) = true.
Proof.
  destruct (configuration args) as [l|] eqn:Hc.
  - destruct (main_configured args env l Hc) as (_ & -> & _).
    rewrite well_bound_parse_events. apply experiment_well_bound.
  - rewrite main_unconfigured by assumption. destruct args; reflexivity.
Qed.

(** ** What does not depend on the rank *)

Lemma collective_app a b : collective (a ++ b) = collective a ++ collective b.
Proof. unfold collective. apply flat_map_app. Qed.

Lemma experiment_collective (l : locals) (env : environment) :
  collective (events (snd (process (experiment l env))))
  = collective (events (snd (process (experiment l (single_rank true))))).
Proof.
  unfold_experiment.
  change (is_root (single_rank true)) with true.
  split_cases l env; run_monad;
    cbv [collective flat_map collective_call is_cerr app]; reflexivity.
Qed.

(** X7. All ranks make the same calls in the same order, apart from
    what they print on [std::cerr], their readings of the clock and the
    value each contributes to a reduction: the same seed, populations, connections and monitors, the
    same barrier and run, and the same number of reductions, whatever the
    rank, the number of ranks and the kernel's result. *)
Theorem ranks_make_the_same_calls
  (args : parse_result variables_map) (env1 env2 : environment) :
  collective (events (snd (process (main args env1))))
  = collective (events (snd (process (main args env2)))).
Proof.
  destruct (configuration args) as [l|] eqn:Hc.
  - destruct (main_configured args env1 l Hc) as (_ & -> & _).
    destruct (main_configured args env2 l Hc) as (_ & -> & _).
    rewrite !collective_app.
    rewrite (experiment_collective l env1), (experiment_collective l env2).
    reflexivity.
  - rewrite !main_unconfigured by assumption. reflexivity.
Qed.

Lemma experiment_cerr_off_root (l : locals) (env : environment) :
  is_root env = false ->
  filter is_cerr (events (snd (process (experiment l env))))
  = if fan_in_exceeds l then [CerrFanIn] else [].
Proof. intros Hr. explore l env; reflexivity. Qed.

(** X8. A rank other than 0 prints nothing on [std::cerr] but the
    message of an exception caught while parsing and the fan-in error:
    sparseness, indices, execution time and synapse counts are printed by
    rank 0 alone. *)
Theorem only_root_reports
  (args : parse_result variables_map) (env : environment) :
  is_root env = false ->
  filter is_cerr (events (snd (process (main args env))))
  = parse_events args
    ++ match configuration args with
       | Some l => if fan_in_exceeds l then [CerrFanIn] else []
       | None => []
       end.
Proof.
  intros Hr. destruct (configuration args) as [l|] eqn:Hc.
  - destruct (main_configured args env l Hc) as (_ & -> & _).
    rewrite filter_app, (experiment_cerr_off_root l env Hr).
    f_equal. destruct args; reflexivity.
  - rewrite main_unconfigured by assumption. cbn [snd events].
    rewrite app_nil_r. destruct args; reflexivity.
Qed.

Lemma only_root_witness :
  is_root (third_of_four true) = false /\
  filter is_cerr
    (events (snd (process (main (po_parsed both_rules)
                                (third_of_four true))))) = [].
Proof.
  split; [reflexivity|].
  exact (only_root_reports (po_parsed both_rules) (third_of_four true)
           eq_refl).
Defined.

(** ** The fan-in check on integers *)

Lemma npostsyn_given (vm : variables_map) (p : Z) :
  vm_npostsyn vm = Some p -> npostsyn (read_options vm) = float_of_Z p.
Proof.
  intros Hp. unfold read_options. cbn [npostsyn]. rewrite Hp. reflexivity.
Qed.

(** X9. For a fan-in and an input population size between 1 and
    [2^24 - 1] the run is stopped with [exit(0)] exactly when the fan-in is
    greater than the size: an admissible fan-in, equal to the size
    included, is never rejected. *)
Theorem fan_in_rejected_iff_greater
  (vm : variables_map) (env : environment) (p : Z) :
  vm_help vm = false ->
  vm_npostsyn vm = Some p ->
  0 < p < 2 ^ 24 ->
  0 < nbinputs (read_options vm) < 2 ^ 24 ->
  (fst (process (main (po_parsed vm) env)) = Exit 0 <->
   nbinputs (read_options vm) < p).
Proof.
  intros Hh Hp Hr Hn.
  rewrite main_parsed by assumption.
  assert (Hf : fan_in_exceeds (read_options vm)
               = (nbinputs (read_options vm) <? p)).
  { unfold fan_in_exceeds. rewrite (npostsyn_given vm p Hp).
    apply float_gt_exact; assumption. }
  rewrite <- Z.ltb_lt, <- Hf.
  generalize (read_options vm). intros l.
  explore l env; split; intros H; first [reflexivity | discriminate H].
Qed.

Lemma fan_in_rejected_witness :
  vm_help fan_in_150 = false /\
  vm_npostsyn fan_in_150 = Some 150 /\
  fst (process (main (po_parsed fan_in_150) (single_rank true))) = Exit 0.
Proof.
  split; [reflexivity|]. split; [reflexivity|].
  apply (fan_in_rejected_iff_greater fan_in_150 (single_rank true) 150
           eq_refl eq_refl);
    vm_compute; try split; congruence.
Defined.

(** ** The derived sparseness as a probability *)

Lemma quotient_at_most_one (m : positive) (e p n : Z) :
  0 < p <= n -> e <= 0 ->
  2 * Z.abs (Zpos m * n - p * 2 ^ (- e)) <= n ->
  Zpos m <= 2 ^ (- e).
Proof.
  intros Hp He Hd.
  assert (0 < 2 ^ (- e)) by (apply Z.pow_pos_nonneg; lia).
  generalize dependent (2 ^ (- e)). intros K Hd HK. nia.
Qed.

(** X10. For [0 < npostsyn <= nbinputs < 2^24] the derived sparseness
    is a probability: it is greater than 0 and not greater than 1.0, and it
    is exactly 1.0 only when the fan-in equals the population size. *)
Theorem sparseness_is_a_probability (vm : variables_map) (p : Z) :
  vm_npostsyn vm = Some p ->
  0 < p <= nbinputs (read_options vm) ->
  nbinputs (read_options vm) < 2 ^ 24 ->
  let s := derived_sparseness (read_options vm) in
  float_gt s (float_of_Z 0) = true /\
  float_gt s (float_of_Z 1) = false /\
  (s = float_of_Z 1 <-> p = nbinputs (read_options vm)).
Proof.
  intros Hp Hr Hn s.
  assert (Hs : s = float_div (float_of_Z p)
                             (float_of_Z (nbinputs (read_options vm)))).
  { unfold s, derived_sparseness. rewrite (npostsyn_given vm p Hp).
    reflexivity. }
  destruct (float_div_nearest p (nbinputs (read_options vm)) Hr Hn)
    as (m & e & Hm & Hrange & He & Hd).
  rewrite <- Hs in Hm.
  pose proof (quotient_at_most_one m e p _ Hr He Hd) as Hle.
  set (n := nbinputs (read_options vm)) in *.
  assert (Hpow : e < -23 \/ e = -23 /\ Zpos m = 2 ^ 23).
  { destruct (Z_lt_ge_dec e (-23)) as [Hlt | Hge]; [left; exact Hlt|].
    right.
    assert (2 ^ (- e) <= 2 ^ 23) by (apply Z.pow_le_mono_r; lia).
    assert (e = -23).
    { destruct (Z.eq_dec e (-23)) as [Heq | Hne]; [exact Heq|].
      assert (2 ^ (- e) <= 2 ^ 22) by (apply Z.pow_le_mono_r; lia).
      change (2 ^ 22) with 4194304 in *. change (2 ^ 23) with 8388608 in *.
      lia. }
    split; [assumption|]. lia. }
  rewrite Hm.
  change (float_of_Z 1) with (S754_finite false 8388608 (-23)).
  change (float_of_Z 0) with (S754_zero false).
  split; [reflexivity|]. split.
  - unfold float_gt, SFltb, SFcompare.
    destruct Hpow as [Hlt | [Heq Hm1]].
    + rewrite (proj2 (Z.compare_gt_iff (-23) e)) by lia. reflexivity.
    + subst e. cbn [Z.compare Pos.compare].
      change (Pos.compare_cont Eq 8388608 m) with (Zpos 8388608 ?= Zpos m).
      change (2 ^ 23) with 8388608 in Hm1. rewrite Hm1.
      rewrite Z.compare_refl. reflexivity.
  - split.
    + intros Heq. injection Heq as Hm1 He1. subst e m.
      change (2 ^ (- -23)) with 8388608 in Hd. lia.
    + intros Hpn.
      assert (Hk : Zpos m = 2 ^ (- e)).
      { assert (0 < 2 ^ (- e)) by (apply Z.pow_pos_nonneg; lia).
        generalize dependent (2 ^ (- e)). intros K Hd HleK HK0.
        rewrite Hpn in Hd. nia. }
      destruct Hpow as [Hlt | [Heq Hm1]].
      * exfalso.
        assert (2 ^ 24 <= 2 ^ (- e)) by (apply Z.pow_le_mono_r; lia).
        lia.
      * subst e. f_equal. apply Pos2Z.inj. exact Hm1.
Qed.

Lemma sparseness_probability_witness :
  vm_npostsyn both_rules = Some 30 /\
  0 < 30 <= nbinputs (read_options both_rules) /\
  float_gt (derived_sparseness (read_options both_rules)) (float_of_Z 1)
  = false.
Proof.
  assert (Hr : 0 < 30 <= nbinputs (read_options both_rules))
    by (vm_compute; split; congruence).
  split; [reflexivity|]. split; [exact Hr|].
  apply (sparseness_is_a_probability both_rules 30 eq_refl Hr).
  reflexivity.
Defined.

(** ** The network that is built *)

Lemma experiment_network (l : locals) (env : environment) :
  let trace := events (snd (process (experiment l env))) in
  populations trace
  = (if fan_in_exceeds l then []
     else [(0%nat, nbinputs l); (1%nat, size l)]) /\
  connections trace
  = (if fan_in_exceeds l then []
     else {| con_kind := Sparse; con_handle := 2%nat; con_src := 0%nat;
             con_dst := 1%nat; con_weight := weight_float (winit l);
             con_sparseness := derived_sparseness l |}
          :: (if with_stdp l
              then [{| con_kind := STDP; con_handle := 3%nat; con_src := 0%nat;
                       con_dst := 1%nat; con_weight := weight_float (winit l);
                       con_sparseness := derived_sparseness l |}]
              else [])
          ++ (if with_bcpnn l
              then [{| con_kind := Bcpnn;
                       con_handle := connection_handle l Bcpnn;
                       con_src := 0%nat; con_dst := 1%nat;
                       con_weight := weight_int 0;
                       con_sparseness := derived_sparseness l |}]
              else [])).
Proof.
  cbv [connection_handle]. explore l env; split; reflexivity.
Qed.

(** X11. A run that passes the fan-in check builds the Poisson
    population of [nbinputs] units and the output population of [size]
    units, and between them always the non-plastic connection; each
    selected rule adds a connection of its own between the same two
    populations (both, when both flags are set), all with the derived
    sparseness.  The non-plastic and the STDP connection start from
    [winit], the associative one from weight 0. *)
Theorem network_of_main
  (args : parse_result variables_map) (env : environment) (l : locals) :
  configuration args = Some l ->
  let trace := events (snd (process (main args env))) in
  populations trace
  = (if fan_in_exceeds l then []
     else [(0%nat, nbinputs l); (1%nat, size l)]) /\
  connections trace
  = (if fan_in_exceeds l then []
     else {| con_kind := Sparse; con_handle := 2%nat; con_src := 0%nat;
             con_dst := 1%nat; con_weight := weight_float (winit l);
             con_sparseness := derived_sparseness l |}
          :: (if with_stdp l
              then [{| con_kind := STDP; con_handle := 3%nat; con_src := 0%nat;
                       con_dst := 1%nat; con_weight := weight_float (winit l);
                       con_sparseness := derived_sparseness l |}]
              else [])
          ++ (if with_bcpnn l
              then [{| con_kind := Bcpnn;
                       con_handle := connection_handle l Bcpnn;
                       con_src := 0%nat; con_dst := 1%nat;
                       con_weight := weight_int 0;
                       con_sparseness := derived_sparseness l |}]
              else [])).
Proof.
  intros Hc trace. unfold trace.
  destruct (main_configured args env l Hc) as (_ & -> & _).
  unfold populations, connections. rewrite !flat_map_app.
  replace (flat_map _ (parse_events args)) with (@nil (handle * Z))
    by (destruct args; reflexivity).
  replace (flat_map _ (parse_events args)) with (@nil connection)
    by (destruct args; reflexivity).
  apply experiment_network.
Qed.

Lemma network_witness :
  configuration (po_parsed both_rules) = Some (read_options both_rules) /\
  map con_kind
    (connections
       (events (snd (process (main (po_parsed both_rules)
                                   (single_rank true))))))
  = [Sparse; STDP; Bcpnn].
Proof.
  split; [reflexivity|].
  destruct (network_of_main (po_parsed both_rules) (single_rank true)
              (read_options both_rules) eq_refl) as [_ Hcon].
  rewrite Hcon. reflexivity.
Defined.

(** ** Associative rule *)

Lemma experiment_associative (l : locals) (env : environment) :
  with_bcpnn l = true ->
  let trace := events (snd (process (experiment l env))) in
  associative_settings trace
  = (if fan_in_exceeds l then []
     else [(gain_w, connection_handle l Bcpnn, double_literal 1 4);
           (gain_b, connection_handle l Bcpnn, double_literal 1 4)]) /\
  Forall (fun e => forall c, associative_constants e = Some c ->
            c = (tau_pre, tau_z_pr, tau_z_po, tau_p, refractory_period))
         trace.
Proof.
  intros Hb. cbv [connection_handle].
  explore l env;
    (split;
     [reflexivity
     |repeat (constructor;
              [cbn [associative_constants]; intros c Hc;
               try discriminate Hc; injection Hc as <-; reflexivity|]);
      constructor]).
Qed.

(** X12. When the associative rule is selected, exactly two gains are
    set on its connection, the weight gain and then the bias gain, both
    [1e-4]; the connection is created with the STDP window constant 0.02,
    the trace constants 0.025 and 0.010, the probability-trace constant 0.2
    and the refractory period 0.005 of [main], none of which an option
    changes. *)
Theorem associative_rule_settings
  (args : parse_result variables_map) (env : environment) (l : locals) :
  configuration args = Some l ->
  with_bcpnn l = true ->
  let trace := events (snd (process (main args env))) in
  associative_settings trace
  = (if fan_in_exceeds l then []
     else [(gain_w, connection_handle l Bcpnn, double_literal 1 4);
           (gain_b, connection_handle l Bcpnn, double_literal 1 4)]) /\
  (forall e c, In e trace -> associative_constants e = Some c ->
     c = (double_literal 2 2, double_literal 25 3, double_literal 1 2,
          double_literal 2 1, float_of_double (double_literal 5 3))).
Proof.
  intros Hc Hb trace. unfold trace.
  destruct (experiment_associative l env Hb) as [Hset Hcon].
  split.
  - destruct (main_configured args env l Hc) as (_ & -> & _).
    unfold associative_settings. rewrite flat_map_app.
    replace (flat_map _ (parse_events args))
      with (@nil (gain * handle * double))
      by (destruct args; reflexivity).
    exact Hset.
  - intros e c He Hec. apply (main_trace args env l _ Hc) in He.
    destruct He as [He | He].
    + apply parse_events_inv in He. destruct He as [-> | [what ->]];
        discriminate Hec.
    + rewrite Forall_forall in Hcon. rewrite (Hcon e He c Hec). reflexivity.
Qed.

Lemma associative_witness :
  configuration (po_parsed both_rules) = Some (read_options both_rules) /\
  with_bcpnn (read_options both_rules) = true /\
  associative_settings
    (events (snd (process (main (po_parsed both_rules)
                                (single_rank true)))))
  = [(gain_w, 4%nat, double_literal 1 4);
     (gain_b, 4%nat, double_literal 1 4)].
Proof.
  split; [reflexivity|]. split; [reflexivity|].
  exact (proj1 (associative_rule_settings (po_parsed both_rules)
                  (single_rank true) (read_options both_rules)
                  eq_refl eq_refl)).
Defined.

(** ** Monitors *)

Lemma experiment_monitor_files (l : locals) (env : environment) :
  monitor_files (events (snd (process (experiment l env))))
  = if reaches_run l && negb (nomon l)
    then (if with_bcpnn l then probe_files else []) ++ spike_files
    else [].
Proof.
  unfold reaches_run. cbv [probe_files spike_files].
  explore l env; reflexivity.
Qed.

Lemma monitor_files_distinct :
  NoDup (probe_files ++ spike_files).
Proof.
  cbv [probe_files spike_files app].
  repeat (constructor;
          [cbn [In]; intros H;
           repeat (destruct H as [H|H]; [discriminate H|]); exact H|]).
  constructor.
Qed.

(** X13. The monitors a run creates write to these files, in this
    order: with the associative rule the seven probe files [zi], [zj],
    [pj], [bj], [pi], [pij], [wij], and in any case [prspikes] and
    [pospikes]; none at all when monitoring is off or validation fails.  No
    two monitors of a run write to the same file. *)
Theorem monitor_files_of_main
  (args : parse_result variables_map) (env : environment) (l : locals) :
  configuration args = Some l ->
  let files := monitor_files (events (snd (process (main args env)))) in
  files
  = (if reaches_run l && negb (nomon l)
     then (if with_bcpnn l then probe_files else []) ++ spike_files
     else []) /\
  NoDup files.
Proof.
  intros Hc files.
  assert (Hf : files
    = (if reaches_run l && negb (nomon l)
       then (if with_bcpnn l then probe_files else []) ++ spike_files
       else [])).
  { unfold files.
    destruct (main_configured args env l Hc) as (_ & -> & _).
    unfold monitor_files. rewrite flat_map_app.
    replace (flat_map _ (parse_events args)) with (@nil string)
      by (destruct args; reflexivity).
    apply experiment_monitor_files. }
  split; [exact Hf|]. rewrite Hf.
  destruct (reaches_run l && negb (nomon l)); [|constructor].
  destruct (with_bcpnn l).
  - exact monitor_files_distinct.
  - pose proof monitor_files_distinct as H.
    cbv [probe_files app] in H.
    do 7 (apply NoDup_cons_iff in H; destruct H as [_ H]). exact H.
Qed.

Lemma monitor_files_witness :
  configuration (po_parsed both_rules) = Some (read_options both_rules) /\
  List.length
    (monitor_files
       (events (snd (process (main (po_parsed both_rules)
                                   (single_rank true)))))) = 9%nat.
Proof.
  split; [reflexivity|].
  destruct (monitor_files_of_main (po_parsed both_rules) (single_rank true)
              (read_options both_rules) eq_refl) as [Hf _].
  rewrite Hf. reflexivity.
Defined.

Lemma experiment_probe_bounds (l : locals) (env : environment) :
  Forall (fun e =>
            (forall h i, probe_unit e = Some (h, i) ->
               h = 0%nat /\ i = ipre l /\
               int_to_unsigned i <= nbinputs l \/
               h = 1%nat /\ i = ipost l /\
               int_to_unsigned i <= size l) /\
            (forall c i j, weight_probe e = Some (c, i, j) ->
               c = connection_handle l Bcpnn /\
               i = ipre l /\ int_to_unsigned i <= nbinputs l /\
               j = ipost l /\ int_to_unsigned j <= size l))
         (events (snd (process (experiment l env)))).
Proof.
  assert (Hpre : ipre_rejected l = false ->
                 int_to_unsigned (ipre l) <= nbinputs l).
  { unfold ipre_rejected. intros H. apply Z.ltb_ge in H. exact H. }
  assert (Hpost : ipost_rejected l = false ->
                  int_to_unsigned (ipost l) <= size l).
  { unfold ipost_rejected. intros H. apply Z.ltb_ge in H. exact H. }
  cbv [connection_handle].
  explore l env;
    repeat (constructor;
            [split;
             [cbn [probe_unit]; intros h i H; try discriminate H;
              injection H as <- <-;
              first [left; solve [repeat split; auto]
                    |right; solve [repeat split; auto]]
             |cbn [weight_probe]; intros c i j H; try discriminate H;
              injection H as <- <- <-; solve [repeat split; auto]]|]);
    constructor.
Qed.

(** X14. Every probe a run creates is bound to the requested unit:
    probes on the input population to [ipre], probes on the output
    population to [ipost], weight probes to the pair ([ipre], [ipost]) of
    the associative connection; and the bound index, read as unsigned, is
    at most the size of its population (it can equal it). *)
Theorem probes_bound_to_requested_units
  (args : parse_result variables_map) (env : environment) (l : locals) :
  configuration args = Some l ->
  forall e, In e (events (snd (process (main args env)))) ->
    (forall h i, probe_unit e = Some (h, i) ->
       h = 0%nat /\ i = ipre l /\ int_to_unsigned i <= nbinputs l \/
       h = 1%nat /\ i = ipost l /\ int_to_unsigned i <= size l) /\
    (forall c i j, weight_probe e = Some (c, i, j) ->
       c = connection_handle l Bcpnn /\
       i = ipre l /\ int_to_unsigned i <= nbinputs l /\
       j = ipost l /\ int_to_unsigned j <= size l).
Proof.
  intros Hc e He. apply (main_trace args env l _ Hc) in He.
  destruct He as [He | He].
  - apply parse_events_inv in He.
    destruct He as [-> | [what ->]]; split; intros; discriminate.
  - pose proof (experiment_probe_bounds l env) as Hall.
    rewrite Forall_forall in Hall. exact (Hall e He).
Qed.

Lemma probes_witness :
  configuration (po_parsed both_rules) = Some (read_options both_rules) /\
  In (NewWeightMonitor 4%nat 7 3 "wij" (double_literal 1 2) 0)
     (events (snd (process (main (po_parsed both_rules)
                                 (single_rank true))))) /\
  int_to_unsigned 7 <= nbinputs (read_options both_rules).
Proof.
  assert (Hin : In (NewWeightMonitor 4%nat 7 3 "wij" (double_literal 1 2) 0)
     (events (snd (process (main (po_parsed both_rules)
                                 (single_rank true)))))).
  { vm_compute. repeat (first [left; reflexivity | right]). }
  split; [reflexivity|]. split; [exact Hin|].
  destruct (probes_bound_to_requested_units (po_parsed both_rules)
              (single_rank true) (read_options both_rules) eq_refl _ Hin)
    as [_ Hw].
  destruct (Hw 4%nat 7 3 eq_refl) as (_ & _ & Hle & _).
  exact Hle.
Defined.

(** ** The way of a count from the connection to the report *)

Lemma experiment_counts (l : locals) (env : environment) :
  filter handles_count (events (snd (process (experiment l env))))
  = if reaches_run l
    then for_each_present l (fun k =>
           [GetNonzero k (connection_handle l k);
            MpiReduceSum (local_count env k (mpi_rank env))])
         ++ (if is_root env
             then for_each_present l (fun k =>
                    [report k (MPI_SUM_int (contributions env k))])
             else [])
    else [].
Proof.
  unfold reaches_run, for_each_present.
  cbv [present connection_handle].
  explore l env; reflexivity.
Qed.

(** X15. In a run that reaches the kernel, every rank queries and at
    once reduces its count of the non-plastic, then of the STDP, then of
    the Bcpnn connection, as far as they are present, sending in each
    reduction the count it queried on that very connection; rank 0 then
    prints, in the same order and each under its own label, what the
    reduction of the counts of that connection gave.  A run that is
    stopped earlier queries, reduces and prints no count. *)
Theorem counts_routed_by_connection
  (args : parse_result variables_map) (env : environment) (l : locals) :
  configuration args = Some l ->
  filter handles_count (events (snd (process (main args env))))
  = if reaches_run l
    then for_each_present l (fun k =>
           [GetNonzero k (connection_handle l k);
            MpiReduceSum (local_count env k (mpi_rank env))])
         ++ (if is_root env
             then for_each_present l (fun k =>
                    [report k (MPI_SUM_int (contributions env k))])
             else [])
    else [].
Proof.
  intros Hc.
  destruct (main_configured args env l Hc) as (_ & -> & _).
  rewrite filter_app.
  replace (filter handles_count (parse_events args))
    with (@nil event) by (destruct args; reflexivity).
  apply experiment_counts.
Qed.

Lemma counts_routed_witness :
  configuration (po_parsed pair_rule) = Some (read_options pair_rule) /\
  filter handles_count
    (events (snd (process (main (po_parsed pair_rule) (three_ranks true)))))
  = [GetNonzero Sparse 2%nat; MpiReduceSum 1200;
     GetNonzero STDP 3%nat; MpiReduceSum 1300;
     CerrNonPlastic 3603; CerrStdp 3906].
Proof.
  split; [reflexivity|].
  rewrite (counts_routed_by_connection (po_parsed pair_rule)
             (three_ranks true) (read_options pair_rule) eq_refl).
  vm_compute. reflexivity.
Defined.

(** * Further properties of the two-stage harness *)

Ltac explore1 l env :=
  unfold SimBcpnn1.experiment, sys_run;
  destruct (SimBcpnn1.nomon l) eqn:Hnomon,
           (SimBcpnn1.ipre_rejected l) eqn:Hipre,
           (SimBcpnn1.ipost_rejected l) eqn:Hipost,
           (is_root env) eqn:Hroot;
  try solve [exfalso; congruence];
  run_monad.

Lemma sim1_main_parsed vm env :
  SimBcpnn1.vm_help vm = false ->
  SimBcpnn1.main (po_parsed vm) env
  = SimBcpnn1.experiment (SimBcpnn1.read_options vm) env.
Proof.
  intros H. unfold SimBcpnn1.main, SimBcpnn1.parse_stage.
  rewrite H. reflexivity.
Qed.

Lemma sim1_main_configured args env l :
  sim1_configuration args = Some l ->
  fst (process (SimBcpnn1.main args env))
  = fst (process (SimBcpnn1.experiment l env)) /\
  events (snd (process (SimBcpnn1.main args env)))
  = sim1_parse_events args
    ++ events (snd (process (SimBcpnn1.experiment l env))).
Proof.
  intros Hc. destruct args as [vm | what | ]; cbn [sim1_configuration] in Hc.
  - destruct (SimBcpnn1.vm_help vm) eqn:Hh; [discriminate|].
    injection Hc as <-. rewrite sim1_main_parsed by assumption.
    cbn [sim1_parse_events app]. split; reflexivity.
  - discriminate.
  - injection Hc as <-.
    unfold SimBcpnn1.main, SimBcpnn1.parse_stage.
    cbn [sim1_parse_events].
    generalize SimBcpnn1.initial_locals. intros l.
    cbv [process boot bind ret call events reads allocated app].
    explore1 l env; auto.
Qed.

Lemma sim1_main_unconfigured args env :
  sim1_configuration args = None ->
  process (SimBcpnn1.main args env)
  = (Return 1,
     {| events := sim1_parse_events args; reads := []; allocated := 0 |}).
Proof.
  intros Hc. destruct args as [vm | what | ]; cbn [sim1_configuration] in Hc.
  - destruct (SimBcpnn1.vm_help vm) eqn:Hh; [|discriminate].
    unfold process, SimBcpnn1.main, SimBcpnn1.parse_stage. rewrite Hh.
    reflexivity.
  - reflexivity.
  - discriminate.
Qed.

Lemma sim1_index_tests (l : SimBcpnn1.locals) :
  SimBcpnn1.ipre_rejected l = (SimBcpnn1.nbinputs l <? 99) /\
  SimBcpnn1.ipost_rejected l = (SimBcpnn1.size l <? 17).
Proof. split; reflexivity. Qed.

Lemma sim1_experiment_exit_status (l : SimBcpnn1.locals) (env : environment) :
  fst (process (SimBcpnn1.experiment l env))
  = if negb (SimBcpnn1.nomon l) && SimBcpnn1.ipre_rejected l
    then Abort 4711
    else if negb (SimBcpnn1.nomon l) && SimBcpnn1.ipost_rejected l
    then Abort 4712
    else Return (if run_ok env then 0 else 1).
Proof. explore1 l env; reflexivity. Qed.

(** X16. The [main] of [sim_bcpnn_1] returns 1 on a help request or a
    [std::exception]; with monitoring enabled it aborts with 4711 when the
    input population has fewer than 99 units, else with 4712 when the
    output population has fewer than 17; otherwise it returns 0 or 1 as
    the kernel succeeded or failed.  With [--nomon true] the sizes are not
    tested. *)
Theorem sim1_main_exit_status
  (args : parse_result SimBcpnn1.variables_map) (env : environment) :
  fst (process (SimBcpnn1.main args env)) = sim1_exit_status args env.
Proof.
  unfold sim1_exit_status.
  destruct (sim1_configuration args) as [l|] eqn:Hc.
  - destruct (sim1_main_configured args env l Hc) as (-> & _).
    rewrite sim1_experiment_exit_status.
    destruct (sim1_index_tests l) as [-> ->]. reflexivity.
  - rewrite sim1_main_unconfigured by assumption. reflexivity.
Qed.

(** ** The network of the two-stage harness *)

Lemma sim1_experiment_network (l : SimBcpnn1.locals) (env : environment) :
  let trace := events (snd (process (SimBcpnn1.experiment l env))) in
  populations trace
  = [(0%nat, SimBcpnn1.nbinputs l); (1%nat, SimBcpnn1.nbinputs l);
     (2%nat, SimBcpnn1.size l)] /\
  connections trace
  = [{| con_kind := Sparse; con_handle := 3%nat; con_src := 0%nat;
        con_dst := 1%nat;
        con_weight := weight_float (SimBcpnn1.winit l);
        con_sparseness := SimBcpnn1.sparseness l |};
     {| con_kind := Sparse; con_handle := 4%nat; con_src := 1%nat;
        con_dst := 2%nat;
        con_weight := weight_float (SimBcpnn1.winit2 l);
        con_sparseness := SimBcpnn1.sparseness l |};
     {| con_kind := Bcpnn; con_handle := 5%nat; con_src := 1%nat;
        con_dst := 2%nat; con_weight := weight_int 0;
        con_sparseness := SimBcpnn1.sparseness l |}] /\
  associative_settings trace
  = [(gain_w, 5%nat, double_literal 1 4);
     (gain_b, 5%nat, double_literal 1 4)].
Proof. explore1 l env; repeat split; reflexivity. Qed.

Lemma sim1_sparseness_option vm l :
  sim1_configuration (po_parsed vm) = Some l ->
  forall x, SimBcpnn1.vm_sparseness vm = Some x ->
            SimBcpnn1.sparseness l = float_of_double x.
Proof.
  cbn [sim1_configuration].
  destruct (SimBcpnn1.vm_help vm); [discriminate|].
  intros Hc x Hx. injection Hc as <-.
  unfold SimBcpnn1.read_options. cbn [SimBcpnn1.sparseness].
  rewrite Hx. reflexivity.
Qed.

Lemma sim1_sparseness_default vm l :
  sim1_configuration (po_parsed vm) = Some l ->
  SimBcpnn1.vm_sparseness vm = None ->
  SimBcpnn1.sparseness l = float_of_double (double_literal 6 1).
Proof.
  cbn [sim1_configuration].
  destruct (SimBcpnn1.vm_help vm); [discriminate|].
  intros Hc Hx. injection Hc as <-.
  unfold SimBcpnn1.read_options. cbn [SimBcpnn1.sparseness].
  rewrite Hx. reflexivity.
Qed.

(** X17. Every configured run of [sim_bcpnn_1], aborted or not, builds
    the same chain: a Poisson population and a relay population, both of
    [nbinputs] units, an output population of [size] units, a non-plastic
    connection from input to relay with weight [winit], and from relay to
    output a non-plastic connection with weight [winit2] next to an
    associative connection with weight 0 and both gains [1e-4].  All three
    connections get the sparseness option as it is, narrowed to single
    precision (0.6 when not given); the value is not tested. *)
Theorem sim1_network
  (args : parse_result SimBcpnn1.variables_map) (env : environment)
  (l : SimBcpnn1.locals) :
  sim1_configuration args = Some l ->
  let trace := events (snd (process (SimBcpnn1.main args env))) in
  populations trace
  = [(0%nat, SimBcpnn1.nbinputs l); (1%nat, SimBcpnn1.nbinputs l);
     (2%nat, SimBcpnn1.size l)] /\
  connections trace
  = [{| con_kind := Sparse; con_handle := 3%nat; con_src := 0%nat;
        con_dst := 1%nat;
        con_weight := weight_float (SimBcpnn1.winit l);
        con_sparseness := SimBcpnn1.sparseness l |};
     {| con_kind := Sparse; con_handle := 4%nat; con_src := 1%nat;
        con_dst := 2%nat;
        con_weight := weight_float (SimBcpnn1.winit2 l);
        con_sparseness := SimBcpnn1.sparseness l |};
     {| con_kind := Bcpnn; con_handle := 5%nat; con_src := 1%nat;
        con_dst := 2%nat; con_weight := weight_int 0;
        con_sparseness := SimBcpnn1.sparseness l |}] /\
  associative_settings trace
  = [(gain_w, 5%nat, double_literal 1 4);
     (gain_b, 5%nat, double_literal 1 4)] /\
  (forall vm x, args = po_parsed vm ->
     SimBcpnn1.vm_sparseness vm = Some x ->
     SimBcpnn1.sparseness l = float_of_double x) /\
  (forall vm, args = po_parsed vm ->
     SimBcpnn1.vm_sparseness vm = None ->
     SimBcpnn1.sparseness l = float_of_double (double_literal 6 1)).
Proof.
  intros Hc trace. unfold trace.
  destruct (sim1_main_configured args env l Hc) as (_ & ->).
  destruct (sim1_experiment_network l env) as (Hpop & Hcon & Hset).
  unfold populations, connections, associative_settings in *.
  rewrite !flat_map_app.
  replace (flat_map _ (sim1_parse_events args)) with (@nil (handle * Z))
    by (destruct args; reflexivity).
  replace (flat_map _ (sim1_parse_events args)) with (@nil connection)
    by (destruct args; reflexivity).
  replace (flat_map _ (sim1_parse_events args))
    with (@nil (gain * handle * double))
    by (destruct args; reflexivity).
  split; [exact Hpop|]. split; [exact Hcon|]. split; [exact Hset|].
  split.
  - intros vm x -> Hx. exact (sim1_sparseness_option vm l Hc x Hx).
  - intros vm -> Hx. exact (sim1_sparseness_default vm l Hc Hx).
Qed.

Lemma sim1_network_witness :
  sim1_configuration (po_parsed sim1_10_outputs)
  = Some (SimBcpnn1.read_options sim1_10_outputs) /\
  fst (process (SimBcpnn1.main (po_parsed sim1_10_outputs)
                               (single_rank true))) = Abort 4712 /\
  populations
    (events (snd (process (SimBcpnn1.main (po_parsed sim1_10_outputs)
                                          (single_rank true)))))
  = [(0%nat, 100); (1%nat, 100); (2%nat, 10)].
Proof.
  split; [reflexivity|]. split; [vm_compute; reflexivity|].
  exact (proj1 (sim1_network (po_parsed sim1_10_outputs) (single_rank true)
                  (SimBcpnn1.read_options sim1_10_outputs) eq_refl)).
Defined.

(** ** Monitors and order of the calls *)




(** ** Ranks and objects *)

Lemma sim1_experiment_collective (l : SimBcpnn1.locals) (env : environment) :
  collective (events (snd (process (SimBcpnn1.experiment l env))))
  = collective
      (events (snd (process (SimBcpnn1.experiment l (single_rank true))))) /\
  filter is_cerr (events (snd (process (SimBcpnn1.experiment l env))))
  = (if is_root env && sim1_reaches_run l then [CerrExecutionTime] else []) /\
  well_bound [] (events (snd (process (SimBcpnn1.experiment l env)))) = true.
Proof.
  unfold sim1_reaches_run. unfold SimBcpnn1.experiment, sys_run.
  change (is_root (single_rank true)) with true.
  destruct (SimBcpnn1.nomon l) eqn:Hnomon,
           (SimBcpnn1.ipre_rejected l) eqn:Hipre,
           (SimBcpnn1.ipost_rejected l) eqn:Hipost,
           (is_root env) eqn:Hroot;
    run_monad;
    cbv [collective flat_map collective_call is_cerr app];
    repeat split; reflexivity.
Qed.

Lemma sim1_well_bound_parse_events objs args t :
  well_bound objs (sim1_parse_events args ++ t) = well_bound objs t.
Proof. destruct args; reflexivity. Qed.

(** X19. In [sim_bcpnn_1] too all ranks make the same calls in the
    same order, whatever the rank and the kernel's result; the only line a
    configured run prints on [std::cerr] after parsing is the execution
    time, at rank 0 and only when the kernel was run; and every call names
    objects created before it, of the kind it needs, each under the next
    free handle. *)
Theorem sim1_ranks_and_objects
  (args : parse_result SimBcpnn1.variables_map) (env1 env2 : environment) :
  collective (events (snd (process (SimBcpnn1.main args env1))))
  = collective (events (snd (process (SimBcpnn1.main args env2)))) /\
  filter is_cerr (events (snd (process (SimBcpnn1.main args env1))))
  = sim1_parse_events args
    ++ match sim1_configuration args with
       | Some l => if is_root env1 && sim1_reaches_run l
                   then [CerrExecutionTime] else []
       | None => []
       end /\
  well_bound [] (events (snd (process (SimBcpnn1.main args env1)))) = true.
Proof.
  destruct (sim1_configuration args) as [l|] eqn:Hc.
  - destruct (sim1_main_configured args env1 l Hc) as (_ & ->).
    destruct (sim1_main_configured args env2 l Hc) as (_ & ->).
    destruct (sim1_experiment_collective l env1) as (Hc1 & Hcerr & Hwb).
    destruct (sim1_experiment_collective l env2) as (Hc2 & _ & _).
    split; [|split].
    + rewrite !collective_app, Hc1, Hc2. reflexivity.
    + rewrite filter_app, Hcerr. f_equal. destruct args; reflexivity.
    + rewrite sim1_well_bound_parse_events. exact Hwb.
  - rewrite !sim1_main_unconfigured by assumption. cbn [snd events].
    rewrite app_nil_r. destruct args; repeat split; reflexivity.
Qed.

(** * Seeding, in both harnesses *)






